(** * Service task of nodeup (upup/pkg/fi/nodeup/nodetasks/service.go)

    A shallow embedding of the systemd [Service] task: its dependency
    classification, default population, discovery ([Find]) and application
    ([RenderLocal]), together with the properties the specification states
    about them.  The operating system (file system, process execution,
    distribution detection) is an explicit state threaded through a small
    state-and-error monad that also records the externally visible calls. *)

From Stdlib Require Import ZArith Ascii String List.
From stdpp Require Import base option list strings gmap fin_maps.

Open Scope string_scope.
Open Scope Z_scope.

(** ** Go standard-library helpers used by the task *)

Module strings.

Definition byte (n : nat) : ascii := ascii_of_nat n.

Definition LF : string := String (byte 10) EmptyString.

(** [strings.Cut(s, sep)] for a one-byte separator: the text before and
    after the first occurrence of [sep]. *)
Fixpoint Cut (sep : ascii) (s : string) : option (string * string) :=
  match s with
  | EmptyString => None
  | String c r =>
      if Ascii.eqb c sep then Some (EmptyString, r)
      else match Cut sep r with
           | Some (a, b) => Some (String c a, b)
           | None => None
           end
  end.

(** [strings.Split(s, sep)] for a one-byte separator. *)
Fixpoint Split (sep : ascii) (s : string) : list string :=
  match s with
  | EmptyString => [EmptyString]
  | String c r =>
      if Ascii.eqb c sep then EmptyString :: Split sep r
      else match Split sep r with
           | h :: t => String c h :: t
           | [] => [String c EmptyString]
           end
  end.

(** [strings.SplitN(s, sep, 2)] for a one-byte separator. *)
Definition SplitN2 (sep : ascii) (s : string) : list string :=
  match Cut sep s with
  | Some (a, b) => [a; b]
  | None => [s]
  end.

(** The UTF-8 encodings of the runes for which [unicode.IsSpace] holds. *)
Definition spaceRunes : list (list ascii) :=
  map (map byte)
    [ [9]; [10]; [11]; [12]; [13]; [32];
      [194; 133]; [194; 160];
      [225; 154; 128];
      [226; 128; 128]; [226; 128; 129]; [226; 128; 130]; [226; 128; 131];
      [226; 128; 132]; [226; 128; 133]; [226; 128; 134]; [226; 128; 135];
      [226; 128; 136]; [226; 128; 137]; [226; 128; 138];
      [226; 128; 168]; [226; 128; 169]; [226; 128; 175];
      [226; 129; 159];
      [227; 128; 128] ]%nat.

Fixpoint stripPrefix (p s : list ascii) : option (list ascii) :=
  match p, s with
  | [], _ => Some s
  | a :: p', b :: s' => if Ascii.eqb a b then stripPrefix p' s' else None
  | _ :: _, [] => None
  end.

Fixpoint stripAny (ps : list (list ascii)) (s : list ascii)
  : option (list ascii) :=
  match ps with
  | [] => None
  | p :: ps' =>
      match stripPrefix p s with
      | Some r => Some r
      | None => stripAny ps' s
      end
  end.

(** Drop leading runes taken from [runes]; every step removes at least
    one byte, so [length s] steps always suffice. *)
Fixpoint trimLeftN (runes : list (list ascii)) (n : nat) (s : list ascii)
  : list ascii :=
  match n with
  | O => s
  | S n' =>
      match stripAny runes s with
      | Some r => trimLeftN runes n' r
      | None => s
      end
  end.

Definition trimLeft (runes : list (list ascii)) (s : list ascii) :=
  trimLeftN runes (length s) s.

(** [strings.TrimSpace]: all leading and trailing white space removed. *)
Definition TrimSpace (s : string) : string :=
  let l := trimLeft spaceRunes (list_ascii_of_string s) in
  string_of_list_ascii
    (rev (trimLeft (map (@rev ascii) spaceRunes) (rev l))).

End strings.

Module time.

(** A [time.Time] instant, counted in nanoseconds from the zero time
    (January 1, year 1, 00:00:00 UTC), which is what [IsZero] and
    [Before] observe on values without a monotonic reading. *)
Definition Time := Z.

Definition zero : Time := 0.
Definition IsZero (t : Time) : bool := t =? 0.
Definition Before (t u : Time) : bool := t <? u.

End time.

Module fi.

(** Modelled from the spec: [fi.ValueOf] and [fi.PtrTo] are declared in
    package fi, outside this file.  Desired fields are tri-state
    (unset / explicit value); an unset field reads as the zero value of
    its type. *)
Definition PtrTo {A} (a : A) : option A := Some a.

Class Zero (A : Type) := zero : A.
#[global] Instance bool_zero : Zero bool := false.
#[global] Instance string_zero : Zero string := EmptyString.

Definition ValueOf {A} `{Zero A} (v : option A) : A :=
  match v with
  | Some a => a
  | None => zero
  end.

End fi.

(** ** Data model *)

Definition debianSystemdSystemPath : string := "/lib/systemd/system".
Definition centosSystemdSystemPath : string := "/usr/lib/systemd/system".
Definition flatcarSystemdSystemPath : string := "/etc/systemd/system".
Definition containerosSystemdSystemPath : string := "/etc/systemd/system".

Definition containerdService : string := "containerd.service".
Definition dockerService : string := "docker.service".
Definition kubeletService : string := "kubelet.service".
Definition protokubeService : string := "protokube.service".

(** [type Service struct]; a nil pointer field is [None]. *)
Record Service := mkService {
  Name : string;
  Definition_ : option string;
  Running : option bool;
  Enabled : option bool;
  ManageState : option bool;
  SmartRestart : option bool
}.

(** The [File] task, of which [GetDependencies] reads [BeforeServices]. *)
Record File := mkFile {
  Path : string;
  BeforeServices : list string
}.

(** The dynamic type of a [fi.NodeupTask], as the type switch of
    [GetDependencies] tells them apart.  Task types other than [Service]
    and [File] are declared outside this file and carry their identity
    only; [TOther] stands for every type the switch does not name. *)
Inductive NodeupTask :=
| TPackage (id : string)
| TAptSource (id : string)
| TUserTask (id : string)
| TGroupTask (id : string)
| TChattr (id : string)
| TBindMount (id : string)
| TArchive (id : string)
| TPrefix (id : string)
| TUpdateEtcHostsTask (id : string)
| TService (s : Service)
| TPullImageTask (id : string)
| TIssueCert (id : string)
| TBootstrapClientTask (id : string)
| TKubeConfig (id : string)
| TLoadImageTask (id : string)
| TFile (f : File)
| TOther (typeName id : string).

(** ** Dependencies *)

(** The body of the loop of [Service.GetDependencies]: what one task of the
    set contributes to [deps]. *)
Definition dependenciesOn (s : Service) (v : NodeupTask) : list NodeupTask :=
  match v with
  | TPackage _ | TAptSource _ | TUserTask _ | TGroupTask _ | TChattr _
  | TBindMount _ | TArchive _ | TPrefix _ | TUpdateEtcHostsTask _ => [v]
  | TService _ | TPullImageTask _ | TIssueCert _ | TBootstrapClientTask _
  | TKubeConfig _ => []
  | TLoadImageTask _ =>
      if String.eqb (Name s) kubeletService then [v] else []
  | TFile f =>
      match BeforeServices f with
      | [] => [v]
      | bs => flat_map (fun b => if String.eqb (Name s) b then [v] else []) bs
      end
  | TOther _ _ => [v]
  end.

(** [Service.GetDependencies] over the tasks in the order the map is
    ranged over. *)
Definition GetDependenciesOf (s : Service) (vs : list NodeupTask)
  : list NodeupTask :=
  flat_map (dependenciesOn s) vs.

(** [func (s *Service) GetDependencies(tasks map[string]fi.NodeupTask)].
    Go ranges over a map in an unspecified order; [map_to_list] fixes one. *)
Definition GetDependencies (s : Service) (tasks : gmap string NodeupTask)
  : list NodeupTask :=
  GetDependenciesOf s (map snd (map_to_list tasks)).

(** ** Defaults *)

(** [func (s *Service) InitDefaults() *Service] *)
Definition InitDefaults (s : Service) : Service :=
  let running := match Running s with None => fi.PtrTo true | r => r end in
  let smartRestart :=
    match SmartRestart s with None => fi.PtrTo true | r => r end in
  let manageState :=
    match ManageState s with None => fi.PtrTo true | r => r end in
  let enabled := match Enabled s with None => running | r => r end in
  {| Name := Name s;
     Definition_ := Definition_ s;
     Running := running;
     Enabled := enabled;
     ManageState := manageState;
     SmartRestart := smartRestart |}.

(** ** Unit-file dependencies *)

(** One line of the unit file, as the loop body of
    [getSystemdDependencies] reads it. *)
Definition lineDependencies (line : string) : list string :=
  let line := strings.TrimSpace line in
  match strings.SplitN2 "="%char line with
  | [k0; v0] =>
      let k := strings.TrimSpace k0 in
      let v := strings.TrimSpace v0 in
      if String.eqb k "EnvironmentFile" then [v]
      else if String.eqb k "ExecStart" then
        match strings.SplitN2 " "%char v with
        | tok :: _ => [tok]
        | [] => []
        end
      else []
  | _ => []
  end.

(** [func getSystemdDependencies(serviceName, definition string)]; its
    error result is always nil. *)
Definition getSystemdDependencies (serviceName definition : string)
  : list string :=
  flat_map lineDependencies (strings.Split (strings.byte 10) definition).

(** ** Diff validation *)


(** Modelled from the spec: one field of the diff that
    [fi.NodeupDefaultDeltaRunMethod] builds for [Service.Run] before it
    calls [CheckChanges]; that method of package fi is not among the
    sources.  A field of Changes is unset where actual and desired agree on
    it, and otherwise carries the new value to apply, which is the desired
    one. *)
Definition changedField {A} `{EqDecision A} (actual desired : option A)
  : option A :=
  if decide (actual = desired) then None else desired.

(** Modelled from the spec: the Changes of [fi.NodeupDefaultDeltaRunMethod],
    a value of the shape of the task with every field built by
    [changedField].  An actual state that is nil has no field set; [Name]
    is no pointer, and unset is the empty string for it. *)
Definition BuildChanges (a : option Service) (e : Service) : Service :=
  {| Name := default "" (changedField (Name <$> a) (Some (Name e)));
     Definition_ := changedField (a ≫= Definition_) (Definition_ e);
     Running := changedField (a ≫= Running) (Running e);
     Enabled := changedField (a ≫= Enabled) (Enabled e);
     ManageState := changedField (a ≫= ManageState) (ManageState e);
     SmartRestart := changedField (a ≫= SmartRestart) (SmartRestart e) |}.


(** ** The machine the task runs on *)

Inductive ReadResult :=
| ReadOk (data : string)
| ReadNotExist           (* an error for which [os.IsNotExist] holds *)
| ReadFailed.            (* any other error *)

Inductive ExecResult :=
| ExecOk (output : string)
| ExecFailed (output : string).

(** What the task asks of its surroundings: the distribution detection of
    package distributions, the file system, process execution, and the two
    standard-library functions whose results the task only passes on.
    Every call may depend on, and the mutating ones may change, the state
    [World] of the machine. *)
Class Host := {
  World : Type;
  Distribution : Type;
  Distribution_eq_dec :: EqDecision Distribution;
  IsDebianFamily : Distribution -> bool;
  IsRHELFamily : Distribution -> bool;
  DistributionFlatcar : Distribution;
  DistributionContainerOS : Distribution;
  (** [distributions.FindDistribution(rootfs)]; [None] is an error. *)
  FindDistribution : string -> World -> option Distribution;
  (** [os.ReadFile(name)] *)
  os_ReadFile : string -> World -> ReadResult;
  (** [os.Stat(name)] followed by [ModTime()]; [None] is an error. *)
  os_Stat : string -> World -> option time.Time;
  (** [fi.WriteFile] of [contents] to [path] with the given file and
      directory modes; the boolean tells whether it succeeded. *)
  fi_WriteFile : string -> string -> N -> N -> World -> bool * World;
  (** [exec.Command(argv...).CombinedOutput()] *)
  exec_CombinedOutput : list string -> World -> ExecResult * World;
  (** [path.Join(dir, name)] *)
  path_Join : string -> string -> string;
  (** [time.Parse(layout, value)]; [None] is an error. *)
  time_Parse : string -> string -> option time.Time
}.

(** The errors the task returns, one constructor per message. *)
Inductive Error :=
| ErrUnknownDistro                      (* unknown or unsupported distro *)
| ErrUnsupportedSystemd                 (* unsupported systemd system *)
| ErrReadingSystemdFile (path : string) (* Error reading systemd file *)
| ErrSystemdShow (name : string)        (* error doing systemd show *)
| ErrWritingServiceFile                 (* error writing systemd service file *)
| ErrDaemonReload                       (* error doing systemd daemon-reload *)
| ErrParseStartTimestamp (startedAt : string)
| ErrSystemctl (action name : string)   (* error doing systemd <action> <name> *)
| ErrSystemctlArgs (args : list string). (* error doing 'systemctl <args>' *)

(** The calls that reach outside the process, in the order they are made. *)
Inductive Event :=
| EvWriteFile (path contents : string)
| EvStat (path : string)
| EvExec (argv : list string).

Inductive Result (A : Type) :=
| Ok (a : A)
| Err (e : Error)
| Panic.                 (* nil-pointer dereference *)
Arguments Ok {A} a.
Arguments Err {A} e.
Arguments Panic {A}.

Section Machine.

Context {H : Host}.

Record State := mkState {
  world : World;
  trace : list Event
}.

(** State, error and trace, threaded through every call. *)
Definition M (A : Type) : Type := State -> Result A * State.

#[global] Instance M_ret : MRet M := fun A a st => (Ok a, st).

#[global] Instance M_bind : MBind M := fun A B f m st =>
  match m st with
  | (Ok a, st') => f a st'
  | (Err e, st') => (Err e, st')
  | (Panic, st') => (Panic, st')
  end.

#[global] Instance M_throw : MThrow Error M := fun A e st => (Err e, st).

Definition panic {A} : M A := fun st => (Panic, st).

Definition emit (ev : Event) : M unit := fun st =>
  (Ok tt, {| world := world st; trace := trace st ++ [ev] |}).

(** A call into the machine: it reads the world and may replace it. *)
Definition call {A} (f : World -> A * World) : M A := fun st =>
  let '(a, w) := f (world st) in
  (Ok a, {| world := w; trace := trace st |}).

Definition findDistribution (rootfs : string) : M (option Distribution) :=
  call (fun w => (FindDistribution rootfs w, w)).

Definition readFile (name : string) : M ReadResult :=
  call (fun w => (os_ReadFile name w, w)).

Definition stat (name : string) : M (option time.Time) :=
  emit (EvStat name);;
  call (fun w => (os_Stat name w, w)).

Definition writeFile (path contents : string) (fileMode dirMode : N)
  : M bool :=
  emit (EvWriteFile path contents);;
  call (fi_WriteFile path contents fileMode dirMode).

Definition combinedOutput (argv : list string) : M ExecResult :=
  emit (EvExec argv);;
  call (exec_CombinedOutput argv).

(** Run a computation on a machine state with an empty trace. *)
Definition run {A} (m : M A) (w : World) : Result A * State :=
  m {| world := w; trace := [] |}.

Definition result {A} (m : M A) (w : World) : Result A := fst (run m w).
Definition events {A} (m : M A) (w : World) : list Event :=
  trace (snd (run m w)).
Definition final {A} (m : M A) (w : World) : World :=
  world (snd (run m w)).

(** *** Path of the unit files *)

(** [func (_ *Service) systemdSystemPath() (string, error)] *)
Definition systemdSystemPath : M string :=
  od ← findDistribution "/";
  match od with
  | None => mthrow ErrUnknownDistro
  | Some d =>
      if IsDebianFamily d then mret debianSystemdSystemPath
      else if IsRHELFamily d then mret centosSystemdSystemPath
      else if decide (d = DistributionFlatcar)
           then mret flatcarSystemdSystemPath
      else if decide (d = DistributionContainerOS)
           then mret containerosSystemdSystemPath
      else mthrow ErrUnsupportedSystemd
  end.

(** *** Status of a unit *)

(** One line of the output of [systemctl show], added to the properties. *)
Definition addProperty (properties : gmap string string) (line : string)
  : gmap string string :=
  if String.eqb line "" then properties
  else match strings.SplitN2 "="%char line with
       | [k; v] => <[k := v]> properties
       | _ => properties
       end.

Definition parseProperties (output : string) : gmap string string :=
  fold_left addProperty (strings.Split (strings.byte 10) output) ∅.

(** Reading a Go map at a key it may lack gives the zero value. *)
Definition property (properties : gmap string string) (k : string)
  : string :=
  default "" (properties !! k).

(** [func getSystemdStatus(name string) (map[string]string, error)] *)
Definition getSystemdStatus (name : string) : M (gmap string string) :=
  r ← combinedOutput ["systemctl"; "show"; "--all"; name];
  match r with
  | ExecFailed _ => mthrow (ErrSystemdShow name)
  | ExecOk output => mret (parseProperties output)
  end.

(** *** Discovery *)

Definition runningOf (activeState : string) : bool :=
  if String.eqb activeState "active" then true
  else if String.eqb activeState "failed" then false
  else if String.eqb activeState "inactive" then false
  else false.

Definition enabledOf (wantedBy : string) : bool :=
  if String.eqb wantedBy "" then false
  else if String.eqb wantedBy "multi-user.target" then true
  else if String.eqb wantedBy "graphical.target multi-user.target" then true
  else false.

(** [Service.Find]: the actual-state snapshot, or an error. *)
Definition Find (e : Service) : M Service :=
  systemdSystemPath ← systemdSystemPath;
  let servicePath := path_Join systemdSystemPath (Name e) in
  d ← readFile servicePath;
  match d with
  | ReadFailed => mthrow (ErrReadingSystemdFile servicePath)
  | ReadNotExist =>
      mret {| Name := Name e;
              Definition_ := None;
              Running := fi.PtrTo false;
              Enabled := None;
              ManageState := None;
              SmartRestart := None |}
  | ReadOk d =>
      properties ← getSystemdStatus (Name e);
      let activeState := property properties "ActiveState" in
      let wantedBy := property properties "WantedBy" in
      mret {| Name := Name e;
              Definition_ := fi.PtrTo d;
              Running := fi.PtrTo (runningOf activeState);
              Enabled := fi.PtrTo (enabledOf wantedBy);
              ManageState := ManageState e;
              SmartRestart := SmartRestart e |}
  end.

(** *** Application *)

(** The action [RenderLocal] starts from: an explicit change of the run
    state, when the task manages it. *)
Definition requestedAction (e changes : Service) : string :=
  if bool_decide (Running changes <> None) && fi.ValueOf (ManageState e)
  then (if fi.ValueOf (Running e) then "restart" else "stop")
  else "".

(** [if changes.Definition != nil]: write the unit file and reload the
    units of systemd. *)
Definition writeDefinition (systemdSystemPath : string)
    (e changes : Service) : M unit :=
  match Definition_ changes with
  | None => mret tt
  | Some _ =>
      let servicePath := path_Join systemdSystemPath (Name e) in
      match Definition_ e with
      | None => panic
      | Some definition =>
          ok ← writeFile servicePath definition 420 493;
          if ok : bool then
            r ← combinedOutput ["systemctl"; "daemon-reload"];
            match r with
            | ExecFailed _ => mthrow ErrDaemonReload
            | ExecOk _ => mret tt
            end
          else mthrow ErrWritingServiceFile
      end
  end.

(** The definition the smart restart reads: the desired one, or the
    actual one when the desired one is empty. *)
Definition effectiveDefinition (a : option Service) (e : Service)
  : string :=
  let definition := fi.ValueOf (Definition_ e) in
  match a with
  | Some a' =>
      if String.eqb definition "" then fi.ValueOf (Definition_ a')
      else definition
  | None => definition
  end.

(** The files whose age the smart restart compares with the start of
    the service: those named by the unit, then the unit file itself. *)
Definition smartRestartDependencies (systemdSystemPath : string)
    (serviceName definition : string) : list string :=
  getSystemdDependencies serviceName definition
    ++ [path_Join systemdSystemPath serviceName].

(** The loop over the dependencies: a dependency that cannot be examined
    is skipped. *)
Fixpoint newestModTime (dependencies : list string) (newest : time.Time)
  : M time.Time :=
  match dependencies with
  | [] => mret newest
  | dependency :: rest =>
      st ← stat dependency;
      match st with
      | None => newestModTime rest newest
      | Some modTime =>
          if time.IsZero newest || time.Before newest modTime
          then newestModTime rest modTime
          else newestModTime rest newest
      end
  end.

Definition startTimestampLayout : string := "Mon 2006-01-02 15:04:05 MST".

(** [if fi.ValueOf(e.ManageState) && fi.ValueOf(e.SmartRestart)]: the
    action after the smart restart has looked at the dependencies. *)
Definition smartRestart (systemdSystemPath : string)
    (a : option Service) (e : Service) (action : string) : M string :=
  if fi.ValueOf (ManageState e) && fi.ValueOf (SmartRestart e) then
    let definition := effectiveDefinition a e in
    if String.eqb action "" && fi.ValueOf (Running e)
       && negb (String.eqb definition "") then
      let dependencies :=
        smartRestartDependencies systemdSystemPath (Name e) definition in
      newest ← newestModTime dependencies time.zero;
      if negb (time.IsZero newest) then
        properties ← getSystemdStatus (Name e);
        let startedAt := property properties "ExecMainStartTimestamp" in
        if String.eqb startedAt "" then mret action
        else
          match time_Parse startTimestampLayout startedAt with
          | None => mthrow (ErrParseStartTimestamp startedAt)
          | Some startedAtTime =>
              if time.Before startedAtTime newest then mret "restart"
              else mret action
          end
      else mret action
    else mret action
  else mret action.

(** [if action != "" && fi.ValueOf(e.ManageState)]: restart or stop. *)
Definition applyAction (e : Service) (action : string) : M unit :=
  if negb (String.eqb action "") && fi.ValueOf (ManageState e) then
    r ← combinedOutput ["systemctl"; action; Name e; "--no-block"];
    match r with
    | ExecFailed _ => mthrow (ErrSystemctl action (Name e))
    | ExecOk _ => mret tt
    end
  else mret tt.

(** [if changes.Enabled != nil && fi.ValueOf(e.ManageState)]: enable or
    disable. *)
Definition applyEnabled (e changes : Service) : M unit :=
  if bool_decide (Enabled changes <> None) && fi.ValueOf (ManageState e)
  then
    let args :=
      if fi.ValueOf (Enabled e) then ["enable"; Name e]
      else ["disable"; Name e] in
    r ← combinedOutput ("systemctl" :: args);
    match r with
    | ExecFailed _ => mthrow (ErrSystemctlArgs args)
    | ExecOk _ => mret tt
    end
  else mret tt.

(** [Service.RenderLocal]: [a] is nil when there is no actual state. *)
Definition RenderLocal (a : option Service) (e changes : Service)
  : M unit :=
  systemdSystemPath ← systemdSystemPath;
  let action := requestedAction e changes in
  writeDefinition systemdSystemPath e changes;;
  action ← smartRestart systemdSystemPath a e action;
  applyAction e action;;
  applyEnabled e changes.

End Machine.

(** ** A simulated machine

    A small concrete [Host], on which the task can be run: a distribution,
    a file system with modification times, the text [systemctl show]
    prints, and a clock that stamps the files the task writes. *)

Module Sim.

Inductive Distro := debian | rhel | flatcar | containeros | unsupported.

#[global] Instance Distro_eq_dec : EqDecision Distro.
Proof. solve_decision. Defined.

Record FileInfo := mkFileInfo {
  contents : string;
  modTime : time.Time
}.

Record Machine := mkMachine {
  distro : option Distro;
  files : gmap string FileInfo;
  unreadable : list string;
  show : option string;
  clock : time.Time
}.

Definition readFile (name : string) (w : Machine) : ReadResult :=
  if bool_decide (name ∈ unreadable w) then ReadFailed
  else match files w !! name with
       | Some f => ReadOk (contents f)
       | None => ReadNotExist
       end.

Definition statFile (name : string) (w : Machine) : option time.Time :=
  modTime <$> files w !! name.

Definition writeFile (path data : string) (fileMode dirMode : N)
    (w : Machine) : bool * Machine :=
  (true,
   {| distro := distro w;
      files := <[path := {| contents := data; modTime := clock w |}]> (files w);
      unreadable := unreadable w;
      show := show w;
      clock := clock w |}).

Definition combinedOutput (argv : list string) (w : Machine)
  : ExecResult * Machine :=
  match argv with
  | _ :: verb :: _ =>
      if String.eqb verb "show" then
        match show w with
        | Some output => (ExecOk output, w)
        | None => (ExecFailed "", w)
        end
      else (ExecOk "", w)
  | _ => (ExecOk "", w)
  end.

(** The instants of the examples below, in nanoseconds since year 1. *)
Definition at0700 : time.Time := 63929026800000000000.
Definition at0800 : time.Time := 63929030400000000000.
Definition at0900 : time.Time := 63929034000000000000.

Definition timestamps : list (string * time.Time) :=
  [ ("Sat 2026-10-31 07:00:00 UTC", at0700);
    ("Sat 2026-10-31 08:00:00 UTC", at0800);
    ("Sat 2026-10-31 09:00:00 UTC", at0900) ].

Fixpoint lookupTimestamp (table : list (string * time.Time))
    (value : string) : option time.Time :=
  match table with
  | [] => None
  | (s, t) :: rest =>
      if String.eqb s value then Some t else lookupTimestamp rest value
  end.

Definition host : Host :=
  {| World := Machine;
     Distribution := Distro;
     IsDebianFamily := fun d => bool_decide (d = debian);
     IsRHELFamily := fun d => bool_decide (d = rhel);
     DistributionFlatcar := flatcar;
     DistributionContainerOS := containeros;
     FindDistribution := fun _ w => distro w;
     os_ReadFile := readFile;
     os_Stat := statFile;
     fi_WriteFile := writeFile;
     exec_CombinedOutput := combinedOutput;
     path_Join := fun dir name => dir ++ "/" ++ name;
     time_Parse := fun _ value => lookupTimestamp timestamps value |}.

(** A Debian machine on which [kubelet.service] is installed and active
    since 08:00, with its environment file last modified at [envTime],
    its unit file at [unitTime] and its binary at 07:00. *)
Definition kubeletUnit : string :=
  "[Service]" ++ strings.LF ++
  "EnvironmentFile=/etc/sysconfig/kubelet" ++ strings.LF ++
  "ExecStart=/usr/local/bin/kubelet $DAEMON_ARGS" ++ strings.LF.

Definition kubeletShow : string :=
  "ActiveState=active" ++ strings.LF ++
  "WantedBy=multi-user.target" ++ strings.LF ++
  "ExecMainStartTimestamp=Sat 2026-10-31 08:00:00 UTC" ++ strings.LF.

Definition kubeletMachine (envTime unitTime : time.Time) : Machine :=
  {| distro := Some debian;
     files :=
       {[ "/lib/systemd/system/kubelet.service" :=
            {| contents := kubeletUnit; modTime := unitTime |};
          "/etc/sysconfig/kubelet" :=
            {| contents := "DAEMON_ARGS=--v=2"; modTime := envTime |};
          "/usr/local/bin/kubelet" :=
            {| contents := "kubelet"; modTime := at0700 |} ]};
     unreadable := [];
     show := Some kubeletShow;
     clock := at0900 |}.

(** A machine of the given distribution with no file at all. *)
Definition bareMachine (d : option Distro) : Machine :=
  {| distro := d;
     files := ∅;
     unreadable := [];
     show := Some "";
     clock := at0900 |}.

Definition kubelet : Service :=
  {| Name := kubeletService;
     Definition_ := Some kubeletUnit;
     Running := Some true;
     Enabled := Some true;
     ManageState := Some true;
     SmartRestart := Some true |}.

(** A [Changes] value with no field set. *)
Definition noChanges : Service :=
  {| Name := "";
     Definition_ := None;
     Running := None;
     Enabled := None;
     ManageState := None;
     SmartRestart := None |}.

(** The kubelet task when nodeup is not to manage the state of services. *)
Definition unmanagedKubelet : Service :=
  {| Name := kubeletService;
     Definition_ := Some kubeletUnit;
     Running := Some true;
     Enabled := Some true;
     ManageState := Some false;
     SmartRestart := Some true |}.

(** The actual state of the kubelet when it runs but is not enabled. *)
Definition kubeletDisabled : Service :=
  {| Name := kubeletService;
     Definition_ := Some kubeletUnit;
     Running := Some true;
     Enabled := Some false;
     ManageState := Some true;
     SmartRestart := Some true |}.

(** A [Changes] value with every field of the kubelet task set. *)
Definition allChanges : Service := kubelet.

(** A [Changes] value with only [Enabled] set. *)
Definition enabledChanged : Service :=
  {| Name := "";
     Definition_ := None;
     Running := None;
     Enabled := Some true;
     ManageState := None;
     SmartRestart := None |}.

(** A task set with one task of each kind the dependencies tell apart. *)
Definition tasksOfExample : gmap string NodeupTask :=
  {[ "Package/ebtables" := TPackage "ebtables";
     "UserTask/kube" := TUserTask "kube";
     "File//etc/default/docker" :=
       TFile {| Path := "/etc/default/docker";
                BeforeServices := [dockerService] |};
     "File//etc/hosts" :=
       TFile {| Path := "/etc/hosts"; BeforeServices := [] |};
     "LoadImageTask/pause" := TLoadImageTask "pause";
     "PullImageTask/etcd" := TPullImageTask "etcd";
     "Service/docker.service" :=
       TService {| Name := dockerService; Definition_ := None;
                   Running := None; Enabled := None;
                   ManageState := None; SmartRestart := None |} ]}.

End Sim.

(** ** What an observer of the trace calls an action *)

(** The verb of a [systemctl] invocation. *)
Definition systemctlVerb (ev : Event) : option string :=
  match ev with
  | EvExec (cmd :: verb :: _) =>
      if String.eqb cmd "systemctl" then Some verb else None
  | _ => None
  end.

Definition verbIn (verbs : list string) (ev : Event) : bool :=
  match systemctlVerb ev with
  | Some verb => existsb (String.eqb verb) verbs
  | None => false
  end.

(** A mutation of the run state: restart or stop. *)
Definition isRunStateAction : Event -> bool := verbIn ["restart"; "stop"].

(** A mutation of the enablement: enable or disable. *)
Definition isEnablementAction : Event -> bool := verbIn ["enable"; "disable"].

(** The [systemctl] invocations of a trace that change the service, as
    opposed to those that query it or reload the units. *)
Definition serviceActions (evs : list Event) : list Event :=
  List.filter (fun ev => isRunStateAction ev || isEnablementAction ev) evs.

Definition restartOf (name : string) : Event :=
  EvExec ["systemctl"; "restart"; name; "--no-block"].

Definition enablementOf (e : Service) : Event :=
  EvExec ["systemctl";
          if fi.ValueOf (Enabled e) then "enable" else "disable";
          Name e].

Definition daemonReload : Event := EvExec ["systemctl"; "daemon-reload"].

Definition showOf (name : string) : list string :=
  ["systemctl"; "show"; "--all"; name].

(** The newest modification time as the loop of the smart restart computes
    it on a machine that no call changes meanwhile. *)
Definition newestOf `{Host} (w : World) (dependencies : list string)
    (newest : time.Time) : time.Time :=
  fold_left
    (fun newest dependency =>
       match os_Stat dependency w with
       | None => newest
       | Some modTime =>
           if time.IsZero newest || time.Before newest modTime
           then modTime else newest
       end)
    dependencies newest.

(** The snapshot [Find] returns when the unit file is absent. *)
Definition absentService (e : Service) : Service :=
  {| Name := Name e;
     Definition_ := None;
     Running := Some false;
     Enabled := None;
     ManageState := None;
     SmartRestart := None |}.

(** The snapshot [Find] returns when the unit file holds [d] and
    [systemctl show] printed [output]. *)
Definition presentService (e : Service) (d output : string) : Service :=
  {| Name := Name e;
     Definition_ := Some d;
     Running :=
       Some (runningOf (property (parseProperties output) "ActiveState"));
     Enabled :=
       Some (enabledOf (property (parseProperties output) "WantedBy"));
     ManageState := ManageState e;
     SmartRestart := SmartRestart e |}.

(** A computation extends the trace: whatever it does, the calls already
    recorded stay, in their order. *)
Definition extends `{Host} {A} (m : M A) : Prop :=
  forall st, exists evs : list Event,
    trace (snd (m st)) = (trace st ++ evs)%list.

(** ** Reading aids for the properties of the parsers *)

(** Whether the byte [c] occurs in [s]. *)
Fixpoint hasByte (c : ascii) (s : string) : bool :=
  match s with
  | EmptyString => false
  | String x r => Ascii.eqb x c || hasByte c r
  end.

(** ** Further inputs for the simulated machine *)

Module Cases.

(** A [Changes] value with only [Running] set. *)
Definition runningChanged : Service :=
  {| Name := "";
     Definition_ := None;
     Running := Some true;
     Enabled := None;
     ManageState := None;
     SmartRestart := None |}.

(** The kubelet task with the smart restart switched off. *)
Definition kubeletNoSmartRestart : Service :=
  {| Name := kubeletService;
     Definition_ := Some Sim.kubeletUnit;
     Running := Some true;
     Enabled := Some true;
     ManageState := Some true;
     SmartRestart := Some false |}.

(** The kubelet machine when the service manager reports no start
    timestamp. *)
Definition machineWithoutStart : Sim.Machine :=
  {| Sim.distro := Some Sim.debian;
     Sim.files := Sim.files (Sim.kubeletMachine Sim.at0900 Sim.at0700);
     Sim.unreadable := [];
     Sim.show := Some ("ActiveState=active" ++ strings.LF);
     Sim.clock := Sim.at0900 |}.

End Cases.

(** ** The install variant of the task *)

(** The dynamic type of a [fi.InstallTask], as [InstallService] tells
    them apart: itself, and every other type. *)
Inductive InstallTask :=
| IInstallService (s : Service)
| IOtherTask (typeName id : string).

(** The body of the loop of [InstallService.GetDependencies]. *)
Definition installDependenciesOn (v : InstallTask) : list InstallTask :=
  match v with
  | IInstallService _ => []
  | _ => [v]
  end.

(** [InstallService.GetDependencies]; it does not read its receiver. *)
Definition InstallGetDependencies (tasks : gmap string InstallTask)
  : list InstallTask :=
  flat_map installDependenciesOn (map snd (map_to_list tasks)).

(** ** Helpers of the GCE TPM verifier (package gcetpmverifier) *)

Module gcetpmverifier.

(** [strings.LastIndex(s, sep)] for a one-byte separator: the index of
    its last occurrence, or -1. *)
Fixpoint LastIndex (sep : ascii) (s : string) : Z :=
  match s with
  | EmptyString => -1
  | String c r =>
      let i := LastIndex sep r in
      if 0 <=? i then i + 1
      else if Ascii.eqb c sep then 0 else -1
  end.

(** The slice [s[n:]], for [n] within the string. *)
Fixpoint sliceFrom (n : nat) (s : string) : string :=
  match n, s with
  | O, _ => s
  | S n', String _ r => sliceFrom n' r
  | S _, EmptyString => EmptyString
  end.

(** [func lastComponent(s string) string] *)
Definition lastComponent (s : string) : string :=
  let lastSlash := LastIndex "/"%char s in
  if negb (lastSlash =? -1) then sliceFrom (Z.to_nat (lastSlash + 1)) s
  else s.

(** The fields of [compute.NetworkInterface] that are read. *)
Record NetworkInterface := mkNetworkInterface {
  NetworkIP : string;
  Ipv6Address : string
}.

(** The loop of [GetInstanceCertificateAlternateNames] over the interfaces
    still to visit, [sans] being the names gathered so far. *)
Fixpoint gatherNames (sans : list string) (ifaces : list NetworkInterface)
  : list string :=
  match ifaces with
  | [] => sans
  | iface :: rest =>
      let sans :=
        if negb (String.eqb (NetworkIP iface) "")
        then (sans ++ [NetworkIP iface])%list else sans in
      let sans :=
        if negb (String.eqb (Ipv6Address iface) "")
        then (sans ++ [Ipv6Address iface])%list else sans in
      if (0 <? length sans)%nat then sans else gatherNames sans rest
  end.

(** [func GetInstanceCertificateAlternateNames(instance)], on the network
    interfaces of the instance; its error result is always nil. *)
Definition GetInstanceCertificateAlternateNames
    (networkInterfaces : list NetworkInterface) : list string :=
  gatherNames [] networkInterfaces.

End gcetpmverifier.

(** ** Assignments of package cloudup *)

Module cloudup.

(** What [incrementIP] and [assignProxy] ask of package net.  An IP
    address is its slice of bytes. *)
Class Net := {
  IPNet : Type;
  (** [net.ParseCIDR(s)]: the address and the network; [None] is an
      error. *)
  net_ParseCIDR : string -> option (list Z * IPNet);
  (** [ipNet.Contains(ip)] *)
  IPNet_Contains : IPNet -> list Z -> bool;
  (** [ip.String()] *)
  IP_String : list Z -> string
}.

(** The loop of [incrementIP], entered with [i = n - 1]: each byte is
    incremented, with wrap-around, until one does not wrap to zero. *)
Fixpoint incrementFrom (n : nat) (ip : list Z) : list Z :=
  match n with
  | O => ip
  | S i =>
      match ip !! i with
      | Some b =>
          let b' := (b + 1) mod 256 in
          let ip := <[i := b']> ip in
          if negb (b' =? 0) then ip else incrementFrom i ip
      | None => ip
      end
  end.

Definition increment (ip : list Z) : list Z := incrementFrom (length ip) ip.

Inductive IncrementError :=
| ErrParseCIDR          (* the error of net.ParseCIDR *)
| ErrOverflowedCIDR.    (* overflowed CIDR while incrementing IP *)

(** [func incrementIP(ip net.IP, cidr string) (string, error)]; the bytes
    of [ip] are incremented in place. *)
Definition incrementIP `{Net} (ip : list Z) (cidr : string)
  : IncrementError + string :=
  match net_ParseCIDR cidr with
  | None => inl ErrParseCIDR
  | Some (_, ipNet) =>
      let ip := increment ip in
      if negb (IPNet_Contains ipNet ip) then inl ErrOverflowedCIDR
      else inr (IP_String ip)
  end.

(** The address as a number, most significant byte first. *)
Definition bigEndian (ip : list Z) : Z :=
  fold_left (fun acc b => acc * 256 + b) ip 0.

Definition isByte (b : Z) : Prop := 0 <= b < 256.

End cloudup.

(** ** The egress proxy of a cluster (package cloudup) *)

Module proxy.

Import cloudup.

(** [strings.Contains(s, substr)] *)
Fixpoint Contains (s substr : string) : bool :=
  String.prefix substr s
  || match s with
     | EmptyString => false
     | String _ r => Contains r substr
     end.

(** [strings.Join(elems, sep)] *)
Definition Join (elems : list string) (sep : string) : string :=
  String.concat sep elems.

(** [kops.EgressProxySpec], of which [assignProxy] reads and writes
    [ProxyExcludes] only. *)
Record EgressProxySpec := mkEgressProxySpec {
  ProxyExcludes : string
}.

Inductive CloudProviderID :=
| CloudProviderAWS
| CloudProviderGCE
| CloudProviderAzure
| CloudProviderOpenstack
| CloudProviderOther (id : string).

(** What [assignProxy] reads of a [kops.Cluster]: [ObjectMeta.Name], the
    result of [GetCloudProvider()], and fields of [Spec], [Spec.API] and
    [Spec.Networking]. *)
Record Cluster := mkCluster {
  ObjectMeta_Name : string;
  ClusterDNSDomain : string;
  API_PublicName : string;
  GetCloudProvider : CloudProviderID;
  NetworkCIDR : string;
  NonMasqueradeCIDR : string;
  AdditionalNetworkCIDRs : list string;
  EgressProxy : option EgressProxySpec
}.

Inductive AssignError :=
| ErrParseNonMasqueradeCIDR  (* unable to parse Non Masquerade CIDR *)
| ErrFirstIP.                (* unable to get first ip address ... *)

(** [if !strings.Contains(excludes, exclude) { append }] *)
Definition appendMissing (excludes : string) (egressSlice : list string)
    (exclude : string) : list string :=
  if negb (Contains excludes exclude) then (egressSlice ++ [exclude])%list
  else egressSlice.

Definition awsNoProxy : string := "169.254.169.254".

(** [assignProxy], which returns the proxy of the cluster or an error;
    [None] is the nil proxy.  The excludes are tested against
    [ProxyExcludes] as it was on entry, which is assigned only at the
    end. *)
Definition assignProxy `{Net} (cluster : Cluster)
  : AssignError + option EgressProxySpec :=
  match EgressProxy cluster with
  | None => inr None
  | Some egressProxy =>
      let excludes := ProxyExcludes egressProxy in
      let egressSlice :=
        if negb (String.eqb excludes "")
        then strings.Split ","%char excludes else [] in
      match net_ParseCIDR (NonMasqueradeCIDR cluster) with
      | None => inl ErrParseNonMasqueradeCIDR
      | Some (ip, _) =>
          match incrementIP ip (NonMasqueradeCIDR cluster) with
          | inl _ => inl ErrFirstIP
          | inr firstIP =>
              let egressSlice :=
                fold_left
                  (fun egressSlice exclude =>
                     if String.eqb exclude "" then egressSlice
                     else appendMissing excludes egressSlice exclude)
                  ["127.0.0.1"; "localhost"; ClusterDNSDomain cluster;
                   API_PublicName cluster; ObjectMeta_Name cluster;
                   firstIP; NonMasqueradeCIDR cluster]
                  egressSlice in
              let egressSlice :=
                match GetCloudProvider cluster with
                | CloudProviderAWS =>
                    appendMissing excludes egressSlice awsNoProxy
                | _ => egressSlice
                end in
              let egressSlice :=
                if negb (String.eqb (NetworkCIDR cluster) "")
                then appendMissing excludes egressSlice (NetworkCIDR cluster)
                else egressSlice in
              let egressSlice :=
                fold_left (appendMissing excludes)
                  (AdditionalNetworkCIDRs cluster) egressSlice in
              inr (Some {| ProxyExcludes := Join egressSlice "," |})
          end
      end
  end.

(** The cluster once [PerformAssignments] has stored the proxy that
    [assignProxy] returned. *)
Definition withEgressProxy (cluster : Cluster)
    (proxy : option EgressProxySpec) : Cluster :=
  {| ObjectMeta_Name := ObjectMeta_Name cluster;
     ClusterDNSDomain := ClusterDNSDomain cluster;
     API_PublicName := API_PublicName cluster;
     GetCloudProvider := GetCloudProvider cluster;
     NetworkCIDR := NetworkCIDR cluster;
     NonMasqueradeCIDR := NonMasqueradeCIDR cluster;
     AdditionalNetworkCIDRs := AdditionalNetworkCIDRs cluster;
     EgressProxy := proxy |}.

(** The excludes [assignProxy] wants present, in the order it visits
    them. *)
Definition wantedExcludes (cluster : Cluster) (firstIP : string)
  : list string :=
  (List.filter (fun s => negb (String.eqb s ""))
     ["127.0.0.1"; "localhost"; ClusterDNSDomain cluster;
      API_PublicName cluster; ObjectMeta_Name cluster;
      firstIP; NonMasqueradeCIDR cluster]
   ++ match GetCloudProvider cluster with
      | CloudProviderAWS => [awsNoProxy]
      | _ => []
      end
   ++ (if negb (String.eqb (NetworkCIDR cluster) "")
       then [NetworkCIDR cluster] else [])
   ++ AdditionalNetworkCIDRs cluster)%list.

(** A network for the examples: addresses of four bytes, every CIDR
    parsing to 100.64.0.0 in a network that holds every address, and an
    address printed as a fixed text. *)
Definition exampleNet : Net :=
  {| IPNet := unit;
     net_ParseCIDR := fun _ => Some ([100; 64; 0; 0], tt);
     IPNet_Contains := fun _ _ => true;
     IP_String := fun _ => "100.64.0.1" |}.

Definition exampleCluster : Cluster :=
  {| ObjectMeta_Name := "k8s.example.com";
     ClusterDNSDomain := "cluster.local";
     API_PublicName := "api.k8s.example.com";
     GetCloudProvider := CloudProviderAWS;
     NetworkCIDR := "172.20.0.0/16";
     NonMasqueradeCIDR := "100.64.0.0/10";
     AdditionalNetworkCIDRs := [];
     EgressProxy := Some {| ProxyExcludes := "internal.example.com" |} |}.

End proxy.

(** * Properties *)

(** ** The helpers on small inputs *)

Example Split_lines :
  strings.Split (strings.byte 10) ("a=b" ++ strings.LF ++ strings.LF ++ "c")
  = ["a=b"; ""; "c"].
Proof. reflexivity. Qed.

Example Split_empty : strings.Split "="%char "" = [""].
Proof. reflexivity. Qed.

Example SplitN2_first_separator :
  strings.SplitN2 "="%char "ExecStart=/bin/x --flag=1"
  = ["ExecStart"; "/bin/x --flag=1"].
Proof. reflexivity. Qed.

Example SplitN2_no_separator :
  strings.SplitN2 "="%char "[Service]" = ["[Service]"].
Proof. reflexivity. Qed.

Example TrimSpace_both_ends :
  strings.TrimSpace ("  Key = v " ++ strings.LF) = "Key = v".
Proof. reflexivity. Qed.

Example getSystemdDependencies_kubelet :
  getSystemdDependencies kubeletService Sim.kubeletUnit
  = ["/etc/sysconfig/kubelet"; "/usr/local/bin/kubelet"].
Proof. reflexivity. Qed.

Example getSystemdDependencies_spaced :
  getSystemdDependencies "x.service"
    ("  EnvironmentFile = -/etc/default/x " ++ strings.LF ++ "ExecStart=")
  = ["-/etc/default/x"; ""].
Proof. reflexivity. Qed.

Example parseProperties_last_wins :
  property
    (parseProperties
       ("ActiveState=failed" ++ strings.LF ++ "noise" ++ strings.LF
        ++ "ActiveState=active" ++ strings.LF))
    "ActiveState" = "active"
  /\ property (parseProperties "ActiveState=active") "WantedBy" = "".
Proof. split; vm_compute; reflexivity. Qed.

(** ** Defaults *)

(** C5: after [InitDefaults], an [Enabled] that was unset equals the value
    of [Running] after the call (itself defaulted to true when it was
    unset), and an [Enabled] that was set is unchanged. *)
Theorem InitDefaults_Enabled (s : Service) :
  (Enabled s = None -> Enabled (InitDefaults s) = Running (InitDefaults s))
  /\ (forall b, Enabled s = Some b -> Enabled (InitDefaults s) = Some b)
  /\ Running (InitDefaults s) = Some (default true (Running s)).
Proof.
  destruct s as [n d r en ms sr]; cbn.
  split; [| split].
  - intros ->. reflexivity.
  - intros b ->. reflexivity.
  - destruct r; reflexivity.
Qed.

Lemma InitDefaults_Enabled_witness :
  Enabled (InitDefaults Sim.noChanges) = Some true
  /\ Enabled (InitDefaults Sim.kubelet) = Some true.
Proof.
  pose proof (InitDefaults_Enabled Sim.noChanges) as [Hunset _].
  pose proof (InitDefaults_Enabled Sim.kubelet) as [_ [Hset _]].
  split.
  - rewrite Hunset; reflexivity.
  - apply Hset. reflexivity.
Defined.

(** ** Diff validation *)



Lemma changedField_agree {A} `{EqDecision A} (actual desired : option A) :
  actual = desired -> changedField actual desired = None.
Proof.
  intros ->. unfold changedField.
  destruct (decide (desired = desired)); [reflexivity | contradiction].
Qed.



(** With the changes of the diff, [RenderLocal] finds a desired definition
    whenever it is to write one. *)
Lemma BuildChanges_definition_desired (a : option Service) (e : Service) :
  Definition_ (BuildChanges a e) <> None -> Definition_ e <> None.
Proof.
  cbn [BuildChanges Definition_]. unfold changedField.
  destruct (decide _); [intros Hx; contradiction | intros Hx; exact Hx].
Qed.

(** The snapshot [Find] takes of an installed unit never makes the diff
    flag [ManageState] or [SmartRestart]. *)
Lemma BuildChanges_presentService (e : Service) (d output : string) :
  ManageState (BuildChanges (Some (presentService e d output)) e) = None
  /\ SmartRestart (BuildChanges (Some (presentService e d output)) e) = None.
Proof.
  cbn [BuildChanges ManageState SmartRestart presentService mbind
       option_bind].
  split; apply changedField_agree; reflexivity.
Qed.

(** ** Dependencies *)

Lemma dependenciesOn_self (s : Service) (v x : NodeupTask) :
  In x (dependenciesOn s v) -> x = v.
Proof.
  destruct v; unfold dependenciesOn;
    try (intros []; fail); try (intros [<- | []]; reflexivity).
  - destruct (String.eqb _ _); [intros [<- | []]; reflexivity | intros []].
  - destruct (BeforeServices f) as [| b bs].
    + intros [<- | []]; reflexivity.
    + intros Hin. apply in_flat_map in Hin as [b' [_ Hin]].
      destruct (String.eqb _ _); [| destruct Hin].
      destruct Hin as [<- | []]; reflexivity.
Qed.

Lemma In_File_dependenciesOn (s : Service) (f : File) :
  In (TFile f) (dependenciesOn s (TFile f))
  <-> BeforeServices f = [] \/ In (Name s) (BeforeServices f).
Proof.
  unfold dependenciesOn. destruct (BeforeServices f) as [| b bs].
  - split; [left; reflexivity | intros _; left; reflexivity].
  - rewrite in_flat_map. split.
    + intros [b' [Hin Hx]]. right.
      destruct (String.eqb_spec (Name s) b'); [subst; exact Hin |].
      destruct Hx.
    + intros [Hnil | Hin]; [discriminate |].
      exists (Name s). split; [exact Hin |].
      rewrite String.eqb_refl. left; reflexivity.
Qed.

Lemma In_GetDependencies (s : Service) (tasks : gmap string NodeupTask)
    (v : NodeupTask) :
  In v (GetDependencies s tasks)
  <-> (exists k, tasks !! k = Some v) /\ In v (dependenciesOn s v).
Proof.
  unfold GetDependencies, GetDependenciesOf. rewrite in_flat_map. split.
  - intros [x [Hx Hv]].
    pose proof (dependenciesOn_self _ _ _ Hv) as ->.
    split; [| exact Hv].
    apply in_map_iff in Hx as [[k y] [Heq Hin]]; cbn in Heq; subst y.
    exists k. apply elem_of_map_to_list, list_elem_of_In, Hin.
  - intros [[k Hk] Hv]. exists v. split; [| exact Hv].
    apply in_map_iff. exists (k, v). split; [reflexivity |].
    apply list_elem_of_In, elem_of_map_to_list, Hk.
Qed.

(** C2, as the code has it: [GetDependencies] returns only tasks of the
    set; it returns every Package and every user task; it returns a File
    task exactly when the file names no service in [BeforeServices] or
    names this one; it returns no Service and no image pull; and it
    returns an image-load task exactly when the service is the kubelet. *)
Theorem GetDependencies_classification (s : Service)
    (tasks : gmap string NodeupTask) :
  (forall v, In v (GetDependencies s tasks) -> exists k, tasks !! k = Some v)
  /\ (forall k id, tasks !! k = Some (TPackage id) ->
        In (TPackage id) (GetDependencies s tasks))
  /\ (forall k id, tasks !! k = Some (TUserTask id) ->
        In (TUserTask id) (GetDependencies s tasks))
  /\ (forall k f, tasks !! k = Some (TFile f) ->
        (In (TFile f) (GetDependencies s tasks)
         <-> BeforeServices f = [] \/ In (Name s) (BeforeServices f)))
  /\ (forall svc, ~ In (TService svc) (GetDependencies s tasks))
  /\ (forall id, ~ In (TPullImageTask id) (GetDependencies s tasks))
  /\ (forall k id, tasks !! k = Some (TLoadImageTask id) ->
        (In (TLoadImageTask id) (GetDependencies s tasks)
         <-> Name s = kubeletService)).
Proof.
  repeat split.
  - intros v Hv. apply In_GetDependencies in Hv. tauto.
  - intros k id Hk. apply In_GetDependencies.
    split; [eauto | left; reflexivity].
  - intros k id Hk. apply In_GetDependencies.
    split; [eauto | left; reflexivity].
  - intros Hin. apply In_GetDependencies in Hin as [_ Hin].
    apply In_File_dependenciesOn, Hin.
  - intros Hf. apply In_GetDependencies.
    split; [eauto | apply In_File_dependenciesOn, Hf].
  - intros svc Hin. apply In_GetDependencies in Hin as [_ []].
  - intros id Hin. apply In_GetDependencies in Hin as [_ []].
  - intros Hin. apply In_GetDependencies in Hin as [_ Hin]. cbn in Hin.
    destruct (String.eqb_spec (Name s) kubeletService); [assumption |].
    destruct Hin.
  - intros Hname. apply In_GetDependencies. split; [eauto |]. cbn.
    rewrite Hname, String.eqb_refl. left; reflexivity.
Qed.

Lemma GetDependencies_classification_witness :
  In (TPackage "ebtables") (GetDependencies Sim.kubelet Sim.tasksOfExample)
  /\ In (TLoadImageTask "pause") (GetDependencies Sim.kubelet Sim.tasksOfExample)
  /\ In (TFile {| Path := "/etc/hosts"; BeforeServices := [] |})
        (GetDependencies Sim.kubelet Sim.tasksOfExample).
Proof.
  pose proof (GetDependencies_classification Sim.kubelet Sim.tasksOfExample)
    as [_ [Hpkg [_ [Hfile [_ [_ Hload]]]]]].
  assert (Hp : Sim.tasksOfExample !! "Package/ebtables"
               = Some (TPackage "ebtables")) by (vm_compute; reflexivity).
  assert (Hl : Sim.tasksOfExample !! "LoadImageTask/pause"
               = Some (TLoadImageTask "pause")) by (vm_compute; reflexivity).
  assert (Hf : Sim.tasksOfExample !! "File//etc/hosts"
               = Some (TFile {| Path := "/etc/hosts"; BeforeServices := [] |}))
    by (vm_compute; reflexivity).
  split; [| split].
  - exact (Hpkg _ _ Hp).
  - exact (proj2 (Hload _ _ Hl) eq_refl).
  - exact (proj2 (Hfile _ _ Hf) (or_introl eq_refl)).
Defined.

(** C2 as stated fails: a File task that is to precede the docker service
    only is in the set, and the kubelet service does not depend on it. *)
Lemma GetDependencies_skips_file_of_other_service :
  let f := {| Path := "/etc/default/docker";
              BeforeServices := [dockerService] |} in
  Sim.tasksOfExample !! "File//etc/default/docker" = Some (TFile f)
  /\ ~ In (TFile f) (GetDependencies Sim.kubelet Sim.tasksOfExample).
Proof.
  split.
  - vm_compute. reflexivity.
  - vm_compute. intros Hin.
    repeat (destruct Hin as [Hin | Hin]; [discriminate Hin |]).
    exact Hin.
Qed.

(** ** Facts about the machine calls *)

Section MachineFacts.

Context {H : Host}.

Lemma bind_run {A B} (m : M A) (f : A -> M B) (st : State) :
  (m ≫= f) st =
  match m st with
  | (Ok a, st') => f a st'
  | (Err e, st') => (Err e, st')
  | (Panic, st') => (Panic, st')
  end.
Proof. reflexivity. Qed.

Lemma stat_run (name : string) (st : State) :
  stat name st =
  (Ok (os_Stat name (world st)),
   {| world := world st; trace := trace st ++ [EvStat name] |}).
Proof. reflexivity. Qed.

Lemma combinedOutput_run (argv : list string) (st : State) :
  combinedOutput argv st =
  (Ok (fst (exec_CombinedOutput argv (world st))),
   {| world := snd (exec_CombinedOutput argv (world st));
      trace := trace st ++ [EvExec argv] |}).
Proof.
  unfold combinedOutput, call, emit. rewrite bind_run. cbn.
  destruct (exec_CombinedOutput argv (world st)); reflexivity.
Qed.

Lemma writeFile_run (path contents : string) (fm dm : N) (st : State) :
  writeFile path contents fm dm st =
  (Ok (fst (fi_WriteFile path contents fm dm (world st))),
   {| world := snd (fi_WriteFile path contents fm dm (world st));
      trace := trace st ++ [EvWriteFile path contents] |}).
Proof.
  unfold writeFile, call, emit. rewrite bind_run. cbn.
  destruct (fi_WriteFile path contents fm dm (world st)); reflexivity.
Qed.

(** Resolving the unit directory neither changes the machine nor leaves a
    trace, and never panics. *)
Lemma systemdSystemPath_run (st : State) :
  systemdSystemPath st = (result systemdSystemPath (world st), st).
Proof.
  unfold result, run, systemdSystemPath, findDistribution, call.
  rewrite !bind_run. destruct st as [w t]; cbn.
  destruct (FindDistribution "/" w); [| reflexivity].
  repeat case_match; reflexivity.
Qed.

Lemma systemdSystemPath_no_panic (w : World) :
  result systemdSystemPath w <> Panic.
Proof.
  unfold result, run, systemdSystemPath, findDistribution, call.
  rewrite bind_run; cbn.
  destruct (FindDistribution "/" w); [| discriminate].
  repeat case_match; discriminate.
Qed.

Lemma getSystemdStatus_run (name : string) (st : State) :
  getSystemdStatus name st =
  (match fst (exec_CombinedOutput (showOf name) (world st)) with
   | ExecOk output => Ok (parseProperties output)
   | ExecFailed _ => Err (ErrSystemdShow name)
   end,
   {| world := snd (exec_CombinedOutput (showOf name) (world st));
      trace := trace st ++ [EvExec (showOf name)] |}).
Proof.
  unfold getSystemdStatus. rewrite bind_run, combinedOutput_run.
  fold (showOf name).
  destruct (fst (exec_CombinedOutput (showOf name) (world st))); reflexivity.
Qed.

Lemma newestModTime_run (dependencies : list string) (newest : time.Time)
    (st : State) :
  newestModTime dependencies newest st =
  (Ok (newestOf (world st) dependencies newest),
   {| world := world st;
      trace := trace st ++ map EvStat dependencies |}).
Proof.
  revert newest st.
  induction dependencies as [| d ds IH]; intros newest st.
  - cbn. rewrite app_nil_r. destruct st; reflexivity.
  - cbn [newestModTime]. rewrite bind_run, stat_run.
    cbn [map].
    destruct (os_Stat d (world st)) as [t |] eqn:Hs.
    + destruct (time.IsZero newest || time.Before newest t) eqn:Hb;
        rewrite IH; cbn [world trace newestOf fold_left];
        rewrite Hs, Hb, <- app_assoc; reflexivity.
    + rewrite IH; cbn [world trace newestOf fold_left].
      rewrite Hs, <- app_assoc; reflexivity.
Qed.


Lemma Find_run (e : Service) (st : State) :
  Find e st =
  match result systemdSystemPath (world st) with
  | Ok dir =>
      match os_ReadFile (path_Join dir (Name e)) (world st) with
      | ReadFailed =>
          (Err (ErrReadingSystemdFile (path_Join dir (Name e))), st)
      | ReadNotExist => (Ok (absentService e), st)
      | ReadOk d =>
          let r := exec_CombinedOutput (showOf (Name e)) (world st) in
          (match fst r with
           | ExecOk output => Ok (presentService e d output)
           | ExecFailed _ => Err (ErrSystemdShow (Name e))
           end,
           {| world := snd r;
              trace := trace st ++ [EvExec (showOf (Name e))] |})
      end
  | Err err => (Err err, st)
  | Panic => (Panic, st)
  end.
Proof.
  unfold Find. rewrite bind_run, systemdSystemPath_run.
  destruct (result systemdSystemPath (world st)) as [dir | err |];
    try reflexivity.
  rewrite bind_run. unfold readFile, call. cbn.
  destruct st as [w t]; cbn.
  destruct (os_ReadFile (path_Join dir (Name e)) w); try reflexivity.
  rewrite bind_run, getSystemdStatus_run. cbn.
  destruct (fst (exec_CombinedOutput (showOf (Name e)) w)); reflexivity.
Qed.

Lemma RenderLocal_run (a : option Service) (e changes : Service)
    (st : State) :
  RenderLocal a e changes st =
  match result systemdSystemPath (world st) with
  | Ok dir =>
      (writeDefinition dir e changes;;
       action ← smartRestart dir a e (requestedAction e changes);
       applyAction e action;;
       applyEnabled e changes) st
  | Err err => (Err err, st)
  | Panic => (Panic, st)
  end.
Proof.
  unfold RenderLocal. rewrite bind_run, systemdSystemPath_run.
  destruct (result systemdSystemPath (world st)); reflexivity.
Qed.

(** ** Path of the unit files *)

(** C6, as the code has it: the directory follows the family of the
    distribution: Debian, RHEL, then Flatcar and ContainerOS, which share
    one directory, so that the four families use three directories; a
    failed detection or any other distribution is an error, which [Find]
    and [RenderLocal] return without having done anything. *)
Theorem systemdSystemPath_by_family (w : World) :
  match FindDistribution "/" w with
  | None => result systemdSystemPath w = Err ErrUnknownDistro
  | Some d =>
      (IsDebianFamily d = true ->
       result systemdSystemPath w = Ok "/lib/systemd/system")
      /\ (IsDebianFamily d = false -> IsRHELFamily d = true ->
          result systemdSystemPath w = Ok "/usr/lib/systemd/system")
      /\ (IsDebianFamily d = false -> IsRHELFamily d = false ->
          d = DistributionFlatcar \/ d = DistributionContainerOS ->
          result systemdSystemPath w = Ok "/etc/systemd/system")
      /\ (IsDebianFamily d = false -> IsRHELFamily d = false ->
          d <> DistributionFlatcar -> d <> DistributionContainerOS ->
          result systemdSystemPath w = Err ErrUnsupportedSystemd)
  end
  /\ List.NoDup [debianSystemdSystemPath; centosSystemdSystemPath;
            flatcarSystemdSystemPath]
  /\ flatcarSystemdSystemPath = containerosSystemdSystemPath
  /\ (forall err, result systemdSystemPath w = Err err ->
      forall a e changes,
        result (Find e) w = Err err
        /\ result (RenderLocal a e changes) w = Err err
        /\ events (RenderLocal a e changes) w = []).
Proof.
  split; [| split; [| split]].
  - unfold result, run, systemdSystemPath, findDistribution, call.
    rewrite bind_run; cbn.
    destruct (FindDistribution "/" w) as [d |]; [| reflexivity].
    repeat split.
    + intros ->. reflexivity.
    + intros -> ->. reflexivity.
    + intros -> -> [-> | ->].
      * rewrite decide_True by reflexivity. reflexivity.
      * rewrite (decide_True (P := DistributionContainerOS
                                   = DistributionContainerOS))
          by reflexivity.
        destruct (decide _); reflexivity.
    + intros -> -> Hf Hc. rewrite !decide_False by assumption. reflexivity.
  - apply List.NoDup_cons; [intros [Hx | [Hx | []]]; discriminate Hx |].
    apply List.NoDup_cons; [intros [Hx | []]; discriminate Hx |].
    apply List.NoDup_cons; [intros [] | apply List.NoDup_nil].
  - reflexivity.
  - intros err Herr a e changes.
    unfold result, events, run.
    rewrite Find_run, RenderLocal_run; cbn [world].
    rewrite Herr. repeat split; reflexivity.
Qed.

End MachineFacts.

Lemma systemdSystemPath_by_family_witness :
  result (H := Sim.host) systemdSystemPath
    (Sim.bareMachine (Some Sim.rhel)) = Ok "/usr/lib/systemd/system"
  /\ result (H := Sim.host) (Find Sim.kubelet)
       (Sim.bareMachine (Some Sim.unsupported)) = Err ErrUnsupportedSystemd.
Proof.
  split.
  - pose proof (systemdSystemPath_by_family (H := Sim.host)
                  (Sim.bareMachine (Some Sim.rhel))) as [Hfam _].
    cbn in Hfam. apply Hfam; reflexivity.
  - pose proof (systemdSystemPath_by_family (H := Sim.host)
                  (Sim.bareMachine (Some Sim.unsupported)))
      as [Hfam [_ [_ Hprop]]].
    cbn in Hfam. destruct Hfam as (_ & _ & _ & Hu).
    assert (Herr : result (H := Sim.host) systemdSystemPath
                     (Sim.bareMachine (Some Sim.unsupported))
                   = Err ErrUnsupportedSystemd)
      by (apply Hu; (reflexivity || discriminate)).
    exact (proj1 (Hprop _ Herr None Sim.kubelet Sim.noChanges)).
Defined.

(** C6 as stated fails: Flatcar and ContainerOS are two distributions, and
    the unit files of both are in one directory. *)
Lemma flatcar_and_containeros_share_directory :
  Sim.flatcar <> Sim.containeros
  /\ result (H := Sim.host) systemdSystemPath
       (Sim.bareMachine (Some Sim.flatcar)) = Ok "/etc/systemd/system"
  /\ result (H := Sim.host) systemdSystemPath
       (Sim.bareMachine (Some Sim.containeros)) = Ok "/etc/systemd/system"
  /\ ~ List.NoDup [debianSystemdSystemPath; centosSystemdSystemPath;
              flatcarSystemdSystemPath; containerosSystemdSystemPath].
Proof.
  repeat split; try discriminate; try reflexivity.
  intros Hnd. inversion Hnd as [| ? ? _ Hnd1]. inversion Hnd1 as [| ? ? _ Hnd2].
  inversion Hnd2 as [| ? ? Hnotin _]. apply Hnotin. left; reflexivity.
Qed.


(** ** Discovery *)

Section FindFacts.

Context {H : Host}.

(** C3, as the code has it: when the unit directory resolves and the unit
    file does not exist, [Find] returns, without an error and without
    touching the machine, a snapshot with [Running] explicitly false and
    [Definition] unset.  [Find] never panics, and it returns an error only
    when the unit directory cannot be resolved, when reading the unit file
    fails otherwise than by its absence, or when the query of the service
    manager fails. *)
Theorem Find_absent_unit_file (w : World) (e : Service) :
  (forall dir,
      result systemdSystemPath w = Ok dir ->
      os_ReadFile (path_Join dir (Name e)) w = ReadNotExist ->
      result (Find e) w
      = Ok {| Name := Name e; Definition_ := None; Running := Some false;
              Enabled := None; ManageState := None; SmartRestart := None |}
      /\ events (Find e) w = []
      /\ final (Find e) w = w)
  /\ result (Find e) w <> Panic
  /\ (forall err,
        result (Find e) w = Err err ->
        result systemdSystemPath w = Err err
        \/ (exists dir,
              result systemdSystemPath w = Ok dir
              /\ os_ReadFile (path_Join dir (Name e)) w = ReadFailed
              /\ err = ErrReadingSystemdFile (path_Join dir (Name e)))
        \/ (exists dir d output,
              result systemdSystemPath w = Ok dir
              /\ os_ReadFile (path_Join dir (Name e)) w = ReadOk d
              /\ fst (exec_CombinedOutput (showOf (Name e)) w)
                 = ExecFailed output
              /\ err = ErrSystemdShow (Name e))).
Proof.
  pose proof (Find_run e {| world := w; trace := [] |}) as HF;
    cbn [world trace] in HF.
  pose proof (systemdSystemPath_no_panic w) as Hnp.
  remember (result systemdSystemPath w) as rp eqn:Hrp.
  unfold result, events, final, run. rewrite HF. clear HF.
  split; [| split].
  - intros dir -> ->. repeat split.
  - destruct rp as [dir | err |]; [| discriminate | congruence].
    destruct (os_ReadFile _ w); try discriminate. cbn.
    destruct (fst _); discriminate.
  - intros err.
    destruct rp as [dir | err' |]; cbn;
      [| intros [= ->]; left; reflexivity | discriminate].
    destruct (os_ReadFile (path_Join dir (Name e)) w) as [d | |] eqn:Hr; cbn.
    + destruct (fst (exec_CombinedOutput (showOf (Name e)) w))
        as [output | output] eqn:Hx; [discriminate |].
      intros [= <-]. right; right. exists dir, d, output. auto.
    + discriminate.
    + intros [= <-]. right; left. exists dir. auto.
Qed.

(** C4: when the unit file exists and the service manager answers, [Find]
    returns a snapshot whose [Running] is true for the active state
    [active] and false for [failed], [inactive] and every other value, and
    whose [Enabled] is true for the two known values of [WantedBy] and
    false for the empty string and every other value. *)
Theorem Find_status_mapping (w : World) (e : Service)
    (dir d output : string) :
  result systemdSystemPath w = Ok dir ->
  os_ReadFile (path_Join dir (Name e)) w = ReadOk d ->
  fst (exec_CombinedOutput (showOf (Name e)) w) = ExecOk output ->
  let activeState := property (parseProperties output) "ActiveState" in
  let wantedBy := property (parseProperties output) "WantedBy" in
  exists actual,
    result (Find e) w = Ok actual
    /\ (activeState = "active" -> Running actual = Some true)
    /\ (activeState = "failed" \/ activeState = "inactive" ->
        Running actual = Some false)
    /\ (activeState <> "active" -> Running actual = Some false)
    /\ (wantedBy = "multi-user.target"
        \/ wantedBy = "graphical.target multi-user.target" ->
        Enabled actual = Some true)
    /\ (wantedBy = "" -> Enabled actual = Some false)
    /\ (wantedBy <> "multi-user.target" ->
        wantedBy <> "graphical.target multi-user.target" ->
        Enabled actual = Some false).
Proof.
  intros Hdir Hread Hshow activeState wantedBy.
  exists (presentService e d output).
  split.
  - unfold result, run. rewrite Find_run; cbn [world trace].
    rewrite Hdir, Hread; cbn. rewrite Hshow. reflexivity.
  - unfold presentService; cbn [Running Enabled].
    fold activeState wantedBy. unfold runningOf, enabledOf.
    repeat split.
    + intros ->. reflexivity.
    + intros [-> | ->]; reflexivity.
    + intros Hne. destruct (String.eqb_spec activeState "active");
        [contradiction |].
      repeat (destruct (String.eqb _ _)); reflexivity.
    + intros [-> | ->]; reflexivity.
    + intros ->. reflexivity.
    + intros Hn1 Hn2.
      destruct (String.eqb_spec wantedBy ""); [reflexivity |].
      destruct (String.eqb_spec wantedBy "multi-user.target");
        [contradiction |].
      destruct (String.eqb_spec wantedBy
                  "graphical.target multi-user.target");
        [contradiction | reflexivity].
Qed.

End FindFacts.

Lemma Find_absent_unit_file_witness :
  result (H := Sim.host) (Find Sim.kubelet)
    (Sim.bareMachine (Some Sim.flatcar))
  = Ok {| Name := kubeletService; Definition_ := None;
          Running := Some false; Enabled := None;
          ManageState := None; SmartRestart := None |}.
Proof.
  pose proof (Find_absent_unit_file (H := Sim.host)
                (Sim.bareMachine (Some Sim.flatcar)) Sim.kubelet)
    as [Habsent _].
  apply (Habsent "/etc/systemd/system"); vm_compute; reflexivity.
Defined.

(** C3 as stated fails: on a machine that has no file at all, and whose
    distribution cannot be told, [Find] returns an error although no unit
    file exists, no read failed and no query of the service manager was
    made. *)
Lemma Find_fails_without_distribution :
  (forall name,
      os_ReadFile (Host := Sim.host) name (Sim.bareMachine None)
      = ReadNotExist)
  /\ result (H := Sim.host) (Find Sim.kubelet) (Sim.bareMachine None)
     = Err ErrUnknownDistro
  /\ events (H := Sim.host) (Find Sim.kubelet) (Sim.bareMachine None) = [].
Proof.
  split; [| split; vm_compute; reflexivity].
  intros name. cbn. unfold Sim.readFile. cbn.
  rewrite lookup_empty. reflexivity.
Qed.

Lemma Find_status_mapping_witness :
  exists actual,
    result (H := Sim.host) (Find Sim.kubelet)
      (Sim.kubeletMachine Sim.at0700 Sim.at0700) = Ok actual
    /\ Running actual = Some true
    /\ Enabled actual = Some true.
Proof.
  destruct (Find_status_mapping (H := Sim.host)
              (Sim.kubeletMachine Sim.at0700 Sim.at0700) Sim.kubelet
              "/lib/systemd/system" Sim.kubeletUnit Sim.kubeletShow)
    as [actual [Hres [Hactive [_ [_ [Hwanted _]]]]]];
    try (vm_compute; reflexivity).
  exists actual. split; [exact Hres |]. split.
  - apply Hactive. vm_compute. reflexivity.
  - apply Hwanted. left. vm_compute. reflexivity.
Defined.

(** ** Application *)

Section RenderFacts.

Context {H : Host}.

Lemma requestedAction_unset (e changes : Service) :
  Running changes = None -> requestedAction e changes = "".
Proof. unfold requestedAction. intros ->. reflexivity. Qed.

Lemma requestedAction_unmanaged (e changes : Service) :
  fi.ValueOf (ManageState e) = false -> requestedAction e changes = "".
Proof.
  unfold requestedAction. intros ->. rewrite andb_false_r. reflexivity.
Qed.

Lemma writeDefinition_unchanged (dir : string) (e changes : Service)
    (st : State) :
  Definition_ changes = None ->
  writeDefinition dir e changes st = (Ok tt, st).
Proof. unfold writeDefinition. intros ->. reflexivity. Qed.

(** Writing the definition leaves in the trace at most the write of the
    unit file followed by the reload. *)
Lemma writeDefinition_trace (dir : string) (e changes : Service)
    (st : State) :
  exists evs : list Event,
    trace (snd (writeDefinition dir e changes st)) = (trace st ++ evs)%list
    /\ (evs = []
        \/ (exists c, evs = [EvWriteFile (path_Join dir (Name e)) c])
        \/ (exists c, evs = [EvWriteFile (path_Join dir (Name e)) c;
                            daemonReload])).
Proof.
  unfold writeDefinition.
  destruct (Definition_ changes) as [c' |];
    [| exists []; rewrite app_nil_r; auto].
  destruct (Definition_ e) as [definition |];
    [| exists []; cbn; rewrite app_nil_r; auto].
  rewrite bind_run, writeFile_run.
  destruct (fst (fi_WriteFile _ _ _ _ _)).
  - rewrite bind_run, combinedOutput_run.
    exists [EvWriteFile (path_Join dir (Name e)) definition; daemonReload].
    split; [| right; right; eauto].
    destruct (fst (exec_CombinedOutput _ _)); cbn; rewrite <- app_assoc;
      reflexivity.
  - exists [EvWriteFile (path_Join dir (Name e)) definition].
    split; [reflexivity | right; left; eauto].
Qed.

Lemma smartRestart_skips (dir : string) (a : option Service) (e : Service)
    (action : string) (st : State) :
  fi.ValueOf (ManageState e) && fi.ValueOf (SmartRestart e)
  && String.eqb action "" && fi.ValueOf (Running e)
  && negb (String.eqb (effectiveDefinition a e) "") = false ->
  smartRestart dir a e action st = (Ok action, st).
Proof.
  unfold smartRestart. intros Hc.
  destruct (fi.ValueOf (ManageState e) && fi.ValueOf (SmartRestart e));
    [| reflexivity].
  cbn [andb] in Hc. rewrite Hc. reflexivity.
Qed.

(** What the smart restart does once it looks at the dependencies. *)
Lemma smartRestart_examines (dir : string) (a : option Service)
    (e : Service) (st : State) :
  fi.ValueOf (ManageState e) = true ->
  fi.ValueOf (SmartRestart e) = true ->
  fi.ValueOf (Running e) = true ->
  effectiveDefinition a e <> "" ->
  let deps :=
    smartRestartDependencies dir (Name e) (effectiveDefinition a e) in
  let newest := newestOf (world st) deps time.zero in
  let r := exec_CombinedOutput (showOf (Name e)) (world st) in
  smartRestart dir a e "" st =
  if time.IsZero newest then
    (Ok "", {| world := world st; trace := trace st ++ map EvStat deps |})
  else
    (match fst r with
     | ExecFailed _ => Err (ErrSystemdShow (Name e))
     | ExecOk output =>
         let startedAt :=
           property (parseProperties output) "ExecMainStartTimestamp" in
         if String.eqb startedAt "" then Ok ""
         else match time_Parse startTimestampLayout startedAt with
              | None => Err (ErrParseStartTimestamp startedAt)
              | Some startedAtTime =>
                  if time.Before startedAtTime newest then Ok "restart"
                  else Ok ""
              end
     end,
     {| world := snd r;
        trace := (trace st ++ map EvStat deps) ++ [EvExec (showOf (Name e))] |}).
Proof.
  intros Hm Hs Hr Hd deps newest r.
  unfold smartRestart. rewrite Hm, Hs, Hr. cbn [andb].
  destruct (String.eqb_spec (effectiveDefinition a e) "") as [Heq | _];
    [contradiction |].
  cbn [negb String.eqb andb].
  rewrite bind_run, newestModTime_run. fold deps newest.
  destruct (time.IsZero newest); cbn [negb]; [reflexivity |].
  rewrite bind_run, getSystemdStatus_run. cbn [world trace]. fold r.
  destruct (fst r) as [output | output]; [| reflexivity].
  destruct (String.eqb _ ""); [reflexivity |].
  destruct (time_Parse _ _) as [t0 |]; [| reflexivity].
  destruct (time.Before t0 newest); reflexivity.
Qed.

Lemma applyAction_run (e : Service) (action : string) (st : State) :
  applyAction e action st =
  if negb (String.eqb action "") && fi.ValueOf (ManageState e) then
    let argv := ["systemctl"; action; Name e; "--no-block"] in
    (match fst (exec_CombinedOutput argv (world st)) with
     | ExecOk _ => Ok tt
     | ExecFailed _ => Err (ErrSystemctl action (Name e))
     end,
     {| world := snd (exec_CombinedOutput argv (world st));
        trace := trace st ++ [EvExec argv] |})
  else (Ok tt, st).
Proof.
  unfold applyAction.
  destruct (negb (String.eqb action "") && fi.ValueOf (ManageState e));
    [| reflexivity].
  rewrite bind_run, combinedOutput_run. cbn zeta.
  destruct (fst (exec_CombinedOutput _ _)); reflexivity.
Qed.

Lemma applyEnabled_run (e changes : Service) (st : State) :
  applyEnabled e changes st =
  if bool_decide (Enabled changes <> None) && fi.ValueOf (ManageState e)
  then
    let args :=
      if fi.ValueOf (Enabled e) then ["enable"; Name e]
      else ["disable"; Name e] in
    (match fst (exec_CombinedOutput ("systemctl" :: args) (world st)) with
     | ExecOk _ => Ok tt
     | ExecFailed _ => Err (ErrSystemctlArgs args)
     end,
     {| world := snd (exec_CombinedOutput ("systemctl" :: args) (world st));
        trace := trace st ++ [enablementOf e] |})
  else (Ok tt, st).
Proof.
  unfold applyEnabled.
  destruct (bool_decide (Enabled changes <> None)
            && fi.ValueOf (ManageState e)); [| reflexivity].
  rewrite bind_run, combinedOutput_run. cbn zeta. unfold enablementOf.
  destruct (fi.ValueOf (Enabled e));
    destruct (fst (exec_CombinedOutput _ _)); reflexivity.
Qed.

(** C7: when the task does not manage the state of the service,
    [RenderLocal] neither restarts, stops, enables nor disables it,
    whatever the actual state and the changes: its trace holds at most the
    write of the unit file followed by the reload of the units. *)
Theorem RenderLocal_unmanaged_state (w : World) (a : option Service)
    (e changes : Service) :
  fi.ValueOf (ManageState e) = false ->
  serviceActions (events (RenderLocal a e changes) w) = []
  /\ (forall ev, In ev (events (RenderLocal a e changes) w) ->
        isRunStateAction ev = false /\ isEnablementAction ev = false)
  /\ (events (RenderLocal a e changes) w = []
      \/ (exists p c, events (RenderLocal a e changes) w = [EvWriteFile p c])
      \/ (exists p c,
            events (RenderLocal a e changes) w
            = [EvWriteFile p c; daemonReload])).
Proof.
  intros Hm.
  assert (Hshape :
      events (RenderLocal a e changes) w = []
      \/ (exists p c, events (RenderLocal a e changes) w = [EvWriteFile p c])
      \/ (exists p c,
            events (RenderLocal a e changes) w
            = [EvWriteFile p c; daemonReload])).
  { unfold events, run. rewrite RenderLocal_run; cbn [world].
    destruct (result systemdSystemPath w) as [dir | err |];
      [| left; reflexivity | left; reflexivity].
    rewrite requestedAction_unmanaged by assumption.
    rewrite bind_run.
    destruct (writeDefinition_trace dir e changes
                {| world := w; trace := [] |}) as [evs [Htr Hevs]].
    cbn [trace app] in Htr.
    destruct (writeDefinition dir e changes {| world := w; trace := [] |})
      as [[[] | err |] st1]; cbn [snd] in Htr.
    - rewrite bind_run, smartRestart_skips
        by (rewrite Hm; reflexivity).
      rewrite bind_run, applyAction_run. cbn [String.eqb negb andb].
      rewrite applyEnabled_run, Hm, andb_false_r. cbn [snd]. rewrite Htr.
      destruct Hevs as [-> | [[c ->] | [c ->]]]; eauto.
    - cbn [snd]. rewrite Htr.
      destruct Hevs as [-> | [[c ->] | [c ->]]]; eauto.
    - cbn [snd]. rewrite Htr.
      destruct Hevs as [-> | [[c ->] | [c ->]]]; eauto. }
  split; [| split; [| exact Hshape]].
  - destruct Hshape as [-> | [[p [c ->]] | [p [c ->]]]]; reflexivity.
  - intros ev Hin.
    destruct Hshape as [Hev | [[p [c Hev]] | [p [c Hev]]]];
      rewrite Hev in Hin; cbn in Hin;
      intuition (subst; reflexivity).
Qed.

Lemma serviceActions_app (l1 l2 : list Event) :
  serviceActions (l1 ++ l2) = (serviceActions l1 ++ serviceActions l2)%list.
Proof. apply List.filter_app. Qed.

Lemma serviceActions_stats (paths : list string) :
  serviceActions (map EvStat paths) = [].
Proof. induction paths as [| p ps IH]; [reflexivity | exact IH]. Qed.

(** From no requested action, the smart restart either keeps it so or asks
    for a restart, and what it leaves in the trace are examinations of
    files and at most one query of the service manager. *)
Lemma smartRestart_shape (dir : string) (a : option Service) (e : Service)
    (st : State) :
  exists (r : Result string) (w' : World) (evs : list Event),
    smartRestart dir a e "" st
    = (r, {| world := w'; trace := (trace st ++ evs)%list |})
    /\ serviceActions evs = []
    /\ (r = Ok ""
        \/ (r = Ok "restart"
            /\ fi.ValueOf (SmartRestart e) = true
            /\ fi.ValueOf (Running e) = true
            /\ effectiveDefinition a e <> "")
        \/ exists err, r = Err err).
Proof.
  destruct (fi.ValueOf (ManageState e) && fi.ValueOf (SmartRestart e)
            && String.eqb "" "" && fi.ValueOf (Running e)
            && negb (String.eqb (effectiveDefinition a e) "")) eqn:Hc.
  - apply andb_prop in Hc as [Hc Hd].
    apply andb_prop in Hc as [Hc Hr].
    apply andb_prop in Hc as [Hc _].
    apply andb_prop in Hc as [Hm Hs].
    assert (Hne : effectiveDefinition a e <> "").
    { intros Heq. rewrite Heq in Hd. discriminate Hd. }
    rewrite (smartRestart_examines dir a e st Hm Hs Hr Hne).
    set (deps := smartRestartDependencies dir (Name e)
                   (effectiveDefinition a e)).
    set (newest := newestOf (world st) deps time.zero).
    destruct (time.IsZero newest).
    + exists (Ok ""), (world st), (map EvStat deps).
      split; [reflexivity |]. split; [apply serviceActions_stats | auto].
    + cbn zeta.
      eexists _, _, (map EvStat deps ++ [EvExec (showOf (Name e))])%list.
      split; [rewrite app_assoc; reflexivity |].
      split; [rewrite serviceActions_app, serviceActions_stats;
              reflexivity |].
      clear Hd.
      destruct (fst (exec_CombinedOutput _ _)) as [output | output];
        [| eauto].
      destruct (String.eqb
                  (property (parseProperties output)
                     "ExecMainStartTimestamp") ""); [auto |].
      destruct (time_Parse _ _); [| eauto].
      destruct (time.Before _ _); [right; left; auto | auto].
  - rewrite (smartRestart_skips dir a e "" st Hc).
    exists (Ok ""), (world st), [].
    rewrite app_nil_r. destruct st; auto.
Qed.

(** C8, as the code has it: when the task manages the state of the
    service and only [Enabled] is set in the changes, a [RenderLocal] that
    succeeds enables the service when it is desired enabled and disables it
    otherwise, exactly once, and never stops it; it restarts it before
    that only when the smart restart asks for it, so that without smart
    restart the enablement is the only action on the service. *)
Theorem RenderLocal_enabled_only (w : World) (a : option Service)
    (e changes : Service) :
  Definition_ changes = None ->
  Running changes = None ->
  Enabled changes <> None ->
  fi.ValueOf (ManageState e) = true ->
  result (RenderLocal a e changes) w = Ok tt ->
  let actions := serviceActions (events (RenderLocal a e changes) w) in
  (actions = [enablementOf e]
   \/ actions = [restartOf (Name e); enablementOf e])
  /\ (actions = [restartOf (Name e); enablementOf e] ->
      fi.ValueOf (SmartRestart e) = true
      /\ fi.ValueOf (Running e) = true
      /\ effectiveDefinition a e <> "")
  /\ (fi.ValueOf (SmartRestart e) = false -> actions = [enablementOf e]).
Proof.
  intros Hd Hr He Hm Hok actions.
  assert (Hen : serviceActions [enablementOf e] = [enablementOf e])
    by (unfold enablementOf; destruct (fi.ValueOf (Enabled e)); reflexivity).
  assert (Hneq : [enablementOf e] <> [restartOf (Name e); enablementOf e])
    by discriminate.
  assert (Hcases :
      actions = [enablementOf e]
      \/ (actions = [restartOf (Name e); enablementOf e]
          /\ fi.ValueOf (SmartRestart e) = true
          /\ fi.ValueOf (Running e) = true
          /\ effectiveDefinition a e <> "")).
  { subst actions. revert Hok. unfold result, events, run.
    rewrite RenderLocal_run; cbn [world].
    destruct (result systemdSystemPath w) as [dir | err |];
      [| discriminate | discriminate].
    rewrite (requestedAction_unset e changes Hr), bind_run,
      (writeDefinition_unchanged dir e changes _ Hd), bind_run.
    destruct (smartRestart_shape dir a e {| world := w; trace := [] |})
      as (r & w' & evs & -> & Hevs & Hres).
    assert (Hcond : bool_decide (Enabled changes <> None)
                    && fi.ValueOf (ManageState e) = true)
      by (rewrite Hm, bool_decide_eq_true_2 by assumption; reflexivity).
    destruct Hres as [-> | [(-> & Hs & Hrun & Hdef) | [err ->]]].
    - rewrite bind_run, applyAction_run. cbn [String.eqb negb andb].
      rewrite applyEnabled_run, Hcond. cbn [world trace snd app].
      intros _. left.
      rewrite serviceActions_app, Hevs. exact Hen.
    - rewrite bind_run, applyAction_run, Hm.
      change (negb (String.eqb "restart" "") && true) with true.
      cbn iota zeta. cbn [world trace].
      destruct (fst (exec_CombinedOutput
                       ["systemctl"; "restart"; Name e; "--no-block"] w'));
        [| discriminate].
      rewrite applyEnabled_run, Hcond. cbn [world trace snd app].
      intros _. right. split; [| auto].
      rewrite !serviceActions_app, Hevs, Hen. reflexivity.
    - discriminate. }
  split; [tauto |]. split.
  - intros Hact. destruct Hcases as [Hone | Htwo]; [| tauto].
    rewrite Hone in Hact. contradiction.
  - intros Hs. destruct Hcases as [Hone | (_ & Hs' & _)]; [exact Hone |].
    congruence.
Qed.

Lemma newestOf_cons (w : World) (d : string) (ds : list string)
    (n : time.Time) :
  newestOf w (d :: ds) n =
  newestOf w ds
    match os_Stat d w with
    | None => n
    | Some modTime =>
        if time.IsZero n || time.Before n modTime then modTime else n
    end.
Proof. reflexivity. Qed.

(** On modification times after the zero time, the loop computes their
    maximum, starting from [n]. *)
Lemma newestOf_spec (w : World) (deps : list string) (n : time.Time) :
  0 <= n ->
  (forall dep t, In dep deps -> os_Stat dep w = Some t -> 0 < t) ->
  n <= newestOf w deps n
  /\ (forall dep t, In dep deps -> os_Stat dep w = Some t ->
        t <= newestOf w deps n)
  /\ (newestOf w deps n = n
      \/ exists dep t,
           In dep deps /\ os_Stat dep w = Some t /\ newestOf w deps n = t).
Proof.
  revert n. induction deps as [| d ds IH]; intros n Hn Hpos.
  - cbn. split; [lia |]. split; [intros ? ? [] | left; reflexivity].
  - rewrite newestOf_cons.
    assert (Hpos' : forall dep t, In dep ds -> os_Stat dep w = Some t -> 0 < t)
      by (intros dep t Hin; apply Hpos; right; exact Hin).
    destruct (os_Stat d w) as [t |] eqn:Hst.
    + assert (Ht : 0 < t) by (apply (Hpos d); [left; reflexivity | exact Hst]).
      set (n' := if time.IsZero n || time.Before n t then t else n).
      assert (Hn' : n <= n' /\ t <= n' /\ (n' = n \/ n' = t)).
      { subst n'. unfold time.IsZero, time.Before.
        destruct (Z.eqb_spec n 0); destruct (Z.ltb_spec n t); cbn; lia. }
      destruct (IH n' ltac:(lia) Hpos') as (Hle & Hall & Hex).
      split; [lia |]. split.
      * intros dep t' [<- | Hin] Hs.
        -- rewrite Hst in Hs. injection Hs as <-. lia.
        -- apply (Hall dep t' Hin Hs).
      * destruct Hex as [Heq | (dep & t' & Hin & Hs & Heq)].
        -- destruct Hn' as (_ & _ & [Hnn | Hnt]).
           ++ left. lia.
           ++ right. exists d, t. split; [left; reflexivity |].
              split; [exact Hst | lia].
        -- right. exists dep, t'. split; [right; exact Hin | auto].
    + destruct (IH n Hn Hpos') as (Hle & Hall & Hex).
      split; [exact Hle |]. split.
      * intros dep t' [<- | Hin] Hs; [congruence |].
        apply (Hall dep t' Hin Hs).
      * destruct Hex as [Heq | (dep & t' & Hin & Hs & Heq)];
          [left; exact Heq |].
        right. exists dep, t'. split; [right; exact Hin | auto].
Qed.

Lemma restartOf_not_stat (name : string) (paths : list string) :
  ~ In (restartOf name) (map EvStat paths).
Proof.
  intros Hin. apply in_map_iff in Hin as (p & Heq & _). discriminate Heq.
Qed.

Lemma restartOf_not_enablement (name : string) (e : Service) :
  restartOf name <> enablementOf e.
Proof.
  unfold restartOf, enablementOf.
  destruct (fi.ValueOf (Enabled e)); discriminate.
Qed.

(** C1, as the code has it: with the state managed, smart restart on, the
    service desired running, no change of the run state pending and a
    non-empty definition in effect, once the definition (if it changed) is
    written and the service manager reports when the service started,
    [RenderLocal] asks for a restart exactly when one of the dependencies
    that can be examined was modified after that start, where the
    dependencies are the files named by [EnvironmentFile=], the first
    tokens of [ExecStart=] and the unit file itself.  If none was modified
    after the start, no restart is asked for. *)
Theorem RenderLocal_smart_restart (w : World) (a : option Service)
    (e changes : Service) (dir output : string)
    (startedAtTime : time.Time) :
  result systemdSystemPath w = Ok dir ->
  fi.ValueOf (ManageState e) = true ->
  fi.ValueOf (SmartRestart e) = true ->
  fi.ValueOf (Running e) = true ->
  Running changes = None ->
  effectiveDefinition a e <> "" ->
  result (writeDefinition dir e changes) w = Ok tt ->
  let w1 := final (writeDefinition dir e changes) w in
  let deps :=
    smartRestartDependencies dir (Name e) (effectiveDefinition a e) in
  (forall dep t, In dep deps -> os_Stat dep w1 = Some t -> 0 < t) ->
  fst (exec_CombinedOutput (showOf (Name e)) w1) = ExecOk output ->
  property (parseProperties output) "ExecMainStartTimestamp" <> "" ->
  time_Parse startTimestampLayout
    (property (parseProperties output) "ExecMainStartTimestamp")
  = Some startedAtTime ->
  (In (restartOf (Name e)) (events (RenderLocal a e changes) w)
   <-> exists dep t,
         In dep deps /\ os_Stat dep w1 = Some t /\ startedAtTime < t)
  /\ ((forall dep t, In dep deps -> os_Stat dep w1 = Some t ->
         t <= startedAtTime) ->
      ~ In (restartOf (Name e)) (events (RenderLocal a e changes) w)).
Proof.
  intros Hdir Hm Hs Hr Hc Hdef Hwd w1 deps Hpos Hshow Hstart Hparse.
  assert (Hiff :
      In (restartOf (Name e)) (events (RenderLocal a e changes) w)
      <-> exists dep t,
            In dep deps /\ os_Stat dep w1 = Some t /\ startedAtTime < t).
  { destruct (newestOf_spec w1 deps time.zero ltac:(unfold time.zero; lia)
                Hpos) as (Hge & Hall & Hex).
    unfold time.zero in *.
    unfold events, run. rewrite RenderLocal_run; cbn [world].
    rewrite Hdir, (requestedAction_unset e changes Hc), bind_run.
    destruct (writeDefinition_trace dir e changes
                {| world := w; trace := [] |}) as (evs1 & Htr & Hevs1).
    cbn [trace app] in Htr.
    subst w1. unfold final, result, run in *.
    destruct (writeDefinition dir e changes {| world := w; trace := [] |})
      as [r1 [w1 t1]].
    cbn [fst snd world trace] in *. subst r1 t1.
    assert (Hno1 : ~ In (restartOf (Name e)) evs1).
    { destruct Hevs1 as [-> | [[c ->] | [c ->]]]; cbn;
        intuition discriminate. }
    rewrite bind_run,
      (smartRestart_examines dir a e _ Hm Hs Hr Hdef). cbn [world trace].
    fold deps. unfold time.IsZero, time.zero.
    set (newest := newestOf w1 deps 0) in *.
    destruct (Z.eqb_spec newest 0) as [Hz | Hnz].
    - (* nothing could be examined *)
      cbv beta iota.
      rewrite bind_run, applyAction_run. cbn [String.eqb negb andb].
      rewrite applyEnabled_run.
      split.
      + intros Hin. exfalso.
        destruct (bool_decide _ && _); cbn [snd trace] in Hin;
          rewrite ?in_app_iff in Hin; cbn [In] in Hin;
          pose proof (restartOf_not_stat (Name e) deps);
          pose proof (restartOf_not_enablement (Name e) e);
          intuition congruence.
      + intros (dep & t & Hin & Hst & Hlt). exfalso.
        specialize (Hpos dep t Hin Hst). specialize (Hall dep t Hin Hst).
        lia.
    - rewrite Hshow. cbv beta iota zeta.
      destruct (String.eqb_spec
                  (property (parseProperties output)
                     "ExecMainStartTimestamp") "") as [Hempty | _];
        [contradiction |].
      rewrite Hparse. unfold time.Before.
      destruct (Z.ltb_spec startedAtTime newest) as [Hlt | Hge'];
        cbv beta iota.
      + (* a dependency is newer than the start *)
        rewrite bind_run, applyAction_run, Hm.
        change (negb (String.eqb "restart" "") && true) with true.
        cbn iota zeta. cbn [world trace].
        split.
        * intros _.
          destruct Hex as [Heq | (dep & t & Hin & Hst & Heq)];
            [contradiction |].
          exists dep, t. split; [exact Hin |]. split; [exact Hst | lia].
        * intros _.
          destruct (fst (exec_CombinedOutput
                           ["systemctl"; "restart"; Name e; "--no-block"]
                           _)).
          -- rewrite applyEnabled_run.
             destruct (bool_decide _ && _); cbn [snd trace];
               rewrite ?in_app_iff; cbn [In]; unfold restartOf; tauto.
          -- cbn [snd trace]. rewrite ?in_app_iff; cbn [In].
             unfold restartOf; tauto.
      + (* the service started after every dependency *)
        rewrite bind_run, applyAction_run. cbn [String.eqb negb andb].
        rewrite applyEnabled_run.
        split.
        * intros Hin. exfalso.
          destruct (bool_decide _ && _); cbn [snd trace] in Hin;
            rewrite ?in_app_iff in Hin; cbn [In] in Hin;
            pose proof (restartOf_not_stat (Name e) deps);
            pose proof (restartOf_not_enablement (Name e) e);
            assert (EvExec (showOf (Name e)) <> restartOf (Name e))
              by discriminate;
            intuition congruence.
        * intros (dep & t & Hin & Hst & Hlt). exfalso.
          specialize (Hall dep t Hin Hst). lia. }
  split; [exact Hiff |].
  intros Hold Hin. apply Hiff in Hin as (dep & t & Hin & Hst & Hlt).
  specialize (Hold dep t Hin Hst). lia.
Qed.

Lemma extends_bind {A B} (m : M A) (f : A -> M B) :
  extends m -> (forall a, extends (f a)) -> extends (m ≫= f).
Proof.
  intros Hm Hf st. rewrite bind_run.
  destruct (Hm st) as [evs Hevs].
  destruct (m st) as [[x | err |] st']; cbn [snd] in *; eauto.
  destruct (Hf x st') as [evs' Hevs'].
  exists (evs ++ evs')%list. rewrite Hevs', Hevs, app_assoc. reflexivity.
Qed.

Lemma extends_applyAction (e : Service) (action : string) :
  extends (applyAction e action).
Proof.
  intros st. rewrite applyAction_run.
  destruct (_ && _); cbn [snd trace]; eauto.
  exists []. rewrite app_nil_r. reflexivity.
Qed.

Lemma extends_applyEnabled (e changes : Service) :
  extends (applyEnabled e changes).
Proof.
  intros st. rewrite applyEnabled_run.
  destruct (_ && _); cbn [snd trace]; eauto.
  exists []. rewrite app_nil_r. reflexivity.
Qed.

(** C10: when the unit file exists and the service manager answers, the
    snapshot of [Find] holds the [ManageState] and [SmartRestart] of the
    desired task, as they are; and the dependencies of the smart restart
    are those read from the definition followed by the unit file itself,
    which [RenderLocal] examines whenever the smart restart looks at the
    dependencies. *)
Theorem Find_keeps_flags_and_unit_file_is_dependency :
  (forall (w : World) (e : Service) (dir d output : string),
      result systemdSystemPath w = Ok dir ->
      os_ReadFile (path_Join dir (Name e)) w = ReadOk d ->
      fst (exec_CombinedOutput (showOf (Name e)) w) = ExecOk output ->
      exists actual,
        result (Find e) w = Ok actual
        /\ ManageState actual = ManageState e
        /\ SmartRestart actual = SmartRestart e)
  /\ (forall dir name definition : string,
        smartRestartDependencies dir name definition
        = (getSystemdDependencies name definition
             ++ [path_Join dir name])%list
        /\ In (path_Join dir name)
              (smartRestartDependencies dir name definition))
  /\ (forall (w : World) (a : option Service) (e changes : Service)
             (dir : string),
        result systemdSystemPath w = Ok dir ->
        fi.ValueOf (ManageState e) = true ->
        fi.ValueOf (SmartRestart e) = true ->
        fi.ValueOf (Running e) = true ->
        Running changes = None ->
        effectiveDefinition a e <> "" ->
        result (writeDefinition dir e changes) w = Ok tt ->
        In (EvStat (path_Join dir (Name e)))
           (events (RenderLocal a e changes) w)).
Proof.
  split; [| split].
  - intros w e dir d output Hdir Hread Hshow.
    exists (presentService e d output). split; [| auto].
    unfold result, run. rewrite Find_run; cbn [world trace].
    rewrite Hdir, Hread; cbn. rewrite Hshow.
    reflexivity.
  - intros dir name definition. split; [reflexivity |].
    unfold smartRestartDependencies. apply in_or_app. right. left.
    reflexivity.
  - intros w a e changes dir Hdir Hm Hs Hr Hc Hdef Hwd.
    set (deps := smartRestartDependencies dir (Name e)
                   (effectiveDefinition a e)).
    assert (Hdep : In (EvStat (path_Join dir (Name e))) (map EvStat deps)).
    { apply in_map. unfold deps, smartRestartDependencies.
      apply in_or_app. right. left. reflexivity. }
    unfold events, run. rewrite RenderLocal_run; cbn [world].
    rewrite Hdir, (requestedAction_unset e changes Hc), bind_run.
    unfold result, run in Hwd.
    destruct (writeDefinition dir e changes {| world := w; trace := [] |})
      as [r1 st1].
    cbn [fst] in Hwd. subst r1.
    rewrite bind_run, (smartRestart_examines dir a e st1 Hm Hs Hr Hdef).
    fold deps.
    assert (Hrest : forall (r : Result string) (st2 : State),
               In (EvStat (path_Join dir (Name e))) (trace st2) ->
               In (EvStat (path_Join dir (Name e)))
                  (trace (snd
                     match r with
                     | Ok action =>
                         (applyAction e action;; applyEnabled e changes) st2
                     | Err err => (Err err, st2)
                     | Panic => (Panic, st2)
                     end))).
    { intros [action | err |] st2 Hin; [| exact Hin | exact Hin].
      destruct (extends_bind (applyAction e action)
                  (fun _ => applyEnabled e changes)
                  (extends_applyAction e action)
                  (fun _ => extends_applyEnabled e changes) st2)
        as [evs Hevs].
      rewrite Hevs. apply in_or_app. left. exact Hin. }
    destruct (time.IsZero _); cbv beta iota zeta.
    + apply (Hrest (Ok "")). cbn [trace].
      apply in_or_app. right. exact Hdep.
    + apply Hrest. cbn [trace].
      apply in_or_app. left. apply in_or_app. right. exact Hdep.
Qed.

End RenderFacts.

(** ** The properties on the simulated machine *)

Lemma RenderLocal_unmanaged_state_witness :
  serviceActions
    (events (H := Sim.host)
       (RenderLocal (Some Sim.kubeletDisabled) Sim.unmanagedKubelet
          Sim.allChanges)
       (Sim.kubeletMachine Sim.at0900 Sim.at0700)) = [].
Proof.
  exact (proj1 (RenderLocal_unmanaged_state (H := Sim.host)
                  (Sim.kubeletMachine Sim.at0900 Sim.at0700)
                  (Some Sim.kubeletDisabled) Sim.unmanagedKubelet
                  Sim.allChanges eq_refl)).
Defined.

Lemma RenderLocal_enabled_only_witness :
  let actions :=
    serviceActions
      (events (H := Sim.host)
         (RenderLocal (Some Sim.kubeletDisabled) Sim.kubelet
            Sim.enabledChanged)
         (Sim.kubeletMachine Sim.at0700 Sim.at0700)) in
  actions = [enablementOf Sim.kubelet]
  \/ actions = [restartOf (Name Sim.kubelet); enablementOf Sim.kubelet].
Proof.
  assert (Hne : Enabled Sim.enabledChanged <> None) by discriminate.
  assert (Hok : result (H := Sim.host)
                  (RenderLocal (Some Sim.kubeletDisabled) Sim.kubelet
                     Sim.enabledChanged)
                  (Sim.kubeletMachine Sim.at0700 Sim.at0700) = Ok tt)
    by (vm_compute; reflexivity).
  exact (proj1 (RenderLocal_enabled_only (H := Sim.host)
                  (Sim.kubeletMachine Sim.at0700 Sim.at0700)
                  (Some Sim.kubeletDisabled) Sim.kubelet Sim.enabledChanged
                  eq_refl eq_refl Hne eq_refl Hok)).
Defined.

(** C8 as stated fails.  With only [Enabled] set in the changes, and the
    environment file of the kubelet modified after the kubelet started,
    [RenderLocal] restarts the kubelet before it enables it: two actions,
    one of them a restart.  And when the task does not manage the state of
    the service, the same changes lead to no action at all. *)
Lemma RenderLocal_enabled_only_restarts :
  Definition_ Sim.enabledChanged = None
  /\ Running Sim.enabledChanged = None
  /\ Enabled Sim.enabledChanged = Some true
  /\ result (H := Sim.host)
       (RenderLocal (Some Sim.kubeletDisabled) Sim.kubelet
          Sim.enabledChanged)
       (Sim.kubeletMachine Sim.at0900 Sim.at0700) = Ok tt
  /\ serviceActions
       (events (H := Sim.host)
          (RenderLocal (Some Sim.kubeletDisabled) Sim.kubelet
             Sim.enabledChanged)
          (Sim.kubeletMachine Sim.at0900 Sim.at0700))
     = [EvExec ["systemctl"; "restart"; "kubelet.service"; "--no-block"];
        EvExec ["systemctl"; "enable"; "kubelet.service"]]
  /\ serviceActions
       (events (H := Sim.host)
          (RenderLocal (Some Sim.kubeletDisabled) Sim.unmanagedKubelet
             Sim.enabledChanged)
          (Sim.kubeletMachine Sim.at0700 Sim.at0700)) = [].
Proof.
  repeat split; vm_compute; reflexivity.
Qed.

Lemma RenderLocal_smart_restart_witness :
  In (restartOf (Name Sim.kubelet))
     (events (H := Sim.host)
        (RenderLocal (Some Sim.kubelet) Sim.kubelet Sim.noChanges)
        (Sim.kubeletMachine Sim.at0900 Sim.at0700)).
Proof.
  assert (Hdir : result (H := Sim.host) systemdSystemPath
                   (Sim.kubeletMachine Sim.at0900 Sim.at0700)
                 = Ok "/lib/systemd/system") by (vm_compute; reflexivity).
  assert (Hdef : effectiveDefinition (Some Sim.kubelet) Sim.kubelet <> "")
    by (vm_compute; discriminate).
  assert (Hwd : result (H := Sim.host)
                  (writeDefinition "/lib/systemd/system" Sim.kubelet
                     Sim.noChanges)
                  (Sim.kubeletMachine Sim.at0900 Sim.at0700) = Ok tt)
    by (vm_compute; reflexivity).
  assert (Hpos : forall dep t,
             In dep (smartRestartDependencies (H := Sim.host)
                       "/lib/systemd/system" (Name Sim.kubelet)
                       (effectiveDefinition (Some Sim.kubelet) Sim.kubelet)) ->
             os_Stat (Host := Sim.host) dep
               (final (H := Sim.host)
                  (writeDefinition "/lib/systemd/system" Sim.kubelet
                     Sim.noChanges)
                  (Sim.kubeletMachine Sim.at0900 Sim.at0700)) = Some t ->
             0 < t).
  { intros dep t Hin Hst. vm_compute in Hin.
    destruct Hin as [<- | [<- | [<- | []]]]; vm_compute in Hst;
      injection Hst as <-; reflexivity. }
  assert (Hshow : fst (exec_CombinedOutput (Host := Sim.host)
                         (showOf (Name Sim.kubelet))
                         (final (H := Sim.host)
                            (writeDefinition "/lib/systemd/system"
                               Sim.kubelet Sim.noChanges)
                            (Sim.kubeletMachine Sim.at0900 Sim.at0700)))
                  = ExecOk Sim.kubeletShow) by (vm_compute; reflexivity).
  assert (Hstart : property (parseProperties Sim.kubeletShow)
                     "ExecMainStartTimestamp" <> "")
    by (vm_compute; discriminate).
  assert (Hparse : time_Parse (Host := Sim.host) startTimestampLayout
                     (property (parseProperties Sim.kubeletShow)
                        "ExecMainStartTimestamp") = Some Sim.at0800)
    by (vm_compute; reflexivity).
  refine (proj2 (proj1 (RenderLocal_smart_restart (H := Sim.host)
                          (Sim.kubeletMachine Sim.at0900 Sim.at0700)
                          (Some Sim.kubelet) Sim.kubelet Sim.noChanges
                          "/lib/systemd/system" Sim.kubeletShow Sim.at0800
                          Hdir eq_refl eq_refl eq_refl eq_refl Hdef Hwd
                          Hpos Hshow Hstart Hparse)) _).
  exists "/etc/sysconfig/kubelet", Sim.at0900.
  split; [vm_compute; auto |]. split; vm_compute; reflexivity.
Defined.

(** C1 as stated fails.  The files the unit of the kubelet names (its
    environment file and its binary) were last modified at 07:00, before
    the kubelet started at 08:00, and no change of the run state is
    pending; the unit file itself was modified at 09:00, and [RenderLocal]
    asks for a restart. *)
Lemma smart_restart_counts_unit_file :
  let w := Sim.kubeletMachine Sim.at0700 Sim.at0900 in
  fi.ValueOf (ManageState Sim.kubelet) = true
  /\ fi.ValueOf (SmartRestart Sim.kubelet) = true
  /\ fi.ValueOf (Running Sim.kubelet) = true
  /\ Running Sim.noChanges = None
  /\ getSystemdDependencies kubeletService Sim.kubeletUnit
     = ["/etc/sysconfig/kubelet"; "/usr/local/bin/kubelet"]
  /\ os_Stat (Host := Sim.host) "/etc/sysconfig/kubelet" w = Some Sim.at0700
  /\ os_Stat (Host := Sim.host) "/usr/local/bin/kubelet" w = Some Sim.at0700
  /\ time_Parse (Host := Sim.host) startTimestampLayout
       (property (parseProperties Sim.kubeletShow) "ExecMainStartTimestamp")
     = Some Sim.at0800
  /\ Sim.at0700 < Sim.at0800
  /\ In (restartOf kubeletService)
        (events (H := Sim.host)
           (RenderLocal (Some Sim.kubelet) Sim.kubelet Sim.noChanges) w).
Proof.
  cbv zeta. repeat split; try (vm_compute; reflexivity).
  vm_compute. auto 10.
Qed.

Lemma Find_keeps_flags_and_unit_file_is_dependency_witness :
  In (EvStat (path_Join (Host := Sim.host) "/lib/systemd/system"
                (Name Sim.kubelet)))
     (events (H := Sim.host)
        (RenderLocal (Some Sim.kubelet) Sim.kubelet Sim.noChanges)
        (Sim.kubeletMachine Sim.at0700 Sim.at0700)).
Proof.
  assert (Hdir : result (H := Sim.host) systemdSystemPath
                   (Sim.kubeletMachine Sim.at0700 Sim.at0700)
                 = Ok "/lib/systemd/system") by (vm_compute; reflexivity).
  assert (Hdef : effectiveDefinition (Some Sim.kubelet) Sim.kubelet <> "")
    by (vm_compute; discriminate).
  assert (Hwd : result (H := Sim.host)
                  (writeDefinition "/lib/systemd/system" Sim.kubelet
                     Sim.noChanges)
                  (Sim.kubeletMachine Sim.at0700 Sim.at0700) = Ok tt)
    by (vm_compute; reflexivity).
  exact (proj2 (proj2 (Find_keeps_flags_and_unit_file_is_dependency
                         (H := Sim.host)))
           (Sim.kubeletMachine Sim.at0700 Sim.at0700)
           (Some Sim.kubelet) Sim.kubelet Sim.noChanges
           "/lib/systemd/system" Hdir eq_refl eq_refl eq_refl eq_refl
           Hdef Hwd).
Defined.

(** * Further properties of the task *)

(** ** Defaults, once more *)

(** X1: [InitDefaults] is idempotent: defaulting a task that has its
    defaults changes nothing. *)
Theorem InitDefaults_idempotent (s : Service) :
  InitDefaults (InitDefaults s) = InitDefaults s.
Proof.
  destruct s as [n d r en ms sr].
  destruct r, en, ms, sr; reflexivity.
Qed.

(** X2: after [InitDefaults] no flag is unset; a flag that was set keeps
    its value, one that was unset is true (or, for [Enabled], the value of
    [Running]); the name and the definition are untouched. *)
Theorem InitDefaults_sets_every_flag (s : Service) :
  Name (InitDefaults s) = Name s
  /\ Definition_ (InitDefaults s) = Definition_ s
  /\ Running (InitDefaults s) = Some (default true (Running s))
  /\ ManageState (InitDefaults s) = Some (default true (ManageState s))
  /\ SmartRestart (InitDefaults s) = Some (default true (SmartRestart s))
  /\ Enabled (InitDefaults s)
     = Some (default (default true (Running s)) (Enabled s)).
Proof.
  destruct s as [n d r en ms sr].
  destruct r, en, ms, sr; repeat split; reflexivity.
Qed.

(** ** The parsers, line by line *)

Lemma Split_not_nil (sep : ascii) (s : string) : strings.Split sep s <> [].
Proof.
  destruct s as [| c r]; cbn; [discriminate |].
  destruct (Ascii.eqb c sep); [discriminate |].
  destruct (strings.Split sep r); discriminate.
Qed.

Lemma Split_app_sep (sep : ascii) (a b : string) :
  strings.Split sep (a ++ String sep b)
  = (strings.Split sep a ++ strings.Split sep b)%list.
Proof.
  induction a as [| c a IH]; simpl.
  - rewrite Ascii.eqb_refl. reflexivity.
  - destruct (Ascii.eqb c sep); rewrite IH; [reflexivity |].
    pose proof (Split_not_nil sep a) as Hne.
    destruct (strings.Split sep a) as [| h t]; [contradiction | reflexivity].
Qed.

Lemma Split_no_sep (sep : ascii) (s : string) :
  hasByte sep s = false -> strings.Split sep s = [s].
Proof.
  induction s as [| c r IH];
    simpl; [reflexivity |].
  intros Hb. apply orb_false_elim in Hb as [Hc Hr].
  rewrite Hc, (IH Hr). reflexivity.
Qed.

Lemma Cut_no_sep (sep : ascii) (s : string) :
  hasByte sep s = false -> strings.Cut sep s = None.
Proof.
  induction s as [| c r IH];
    simpl; [reflexivity |].
  intros Hb. apply orb_false_elim in Hb as [Hc Hr].
  rewrite Hc, (IH Hr). reflexivity.
Qed.

Lemma Cut_first (sep : ascii) (k v : string) :
  hasByte sep k = false ->
  strings.Cut sep (k ++ String sep v) = Some (k, v).
Proof.
  induction k as [| c r IH]; simpl.
  - rewrite Ascii.eqb_refl. reflexivity.
  - intros Hb. apply orb_false_elim in Hb as [Hc Hr].
    rewrite Hc, (IH Hr). reflexivity.
Qed.

Lemma Cut_Some (sep : ascii) (s a b : string) :
  strings.Cut sep s = Some (a, b) ->
  s = a ++ String sep b /\ hasByte sep a = false.
Proof.
  revert a b. induction s as [| c r IH];
    simpl; [discriminate |].
  intros a b. destruct (Ascii.eqb_spec c sep) as [-> | Hne].
  - intros [= <- <-]. split; reflexivity.
  - destruct (strings.Cut sep r) as [[a' b'] |]; [| discriminate].
    intros [= <- <-]. destruct (IH a' b' eq_refl) as [-> Ha].
    split; [reflexivity |]. simpl. rewrite Ha.
    destruct (Ascii.eqb_spec c sep); [contradiction | reflexivity].
Qed.

Lemma parseProperties_line (out line : string) :
  hasByte (strings.byte 10) line = false ->
  parseProperties (out ++ strings.LF ++ line)
  = addProperty (parseProperties out) line.
Proof.
  intros Hline. unfold parseProperties.
  change (out ++ strings.LF ++ line)
    with (out ++ String (strings.byte 10) line).
  rewrite Split_app_sep, fold_left_app, (Split_no_sep _ _ Hline).
  reflexivity.
Qed.

(** X3: [getSystemdStatus] reads the output of [systemctl show] line by
    line.  A further line [k=v] sets the property [k] to [v] (the value
    being all that follows the first [=]) and leaves the other properties
    as they were; a further line without [=] changes nothing. *)
Theorem getSystemdStatus_reads_lines (out : string) :
  (forall k v,
      hasByte "="%char k = false ->
      hasByte (strings.byte 10) k = false ->
      hasByte (strings.byte 10) v = false ->
      property (parseProperties (out ++ strings.LF ++ k ++ "=" ++ v)) k = v
      /\ forall k', k' <> k ->
           property (parseProperties (out ++ strings.LF ++ k ++ "=" ++ v)) k'
           = property (parseProperties out) k')
  /\ (forall noise,
        hasByte "="%char noise = false ->
        hasByte (strings.byte 10) noise = false ->
        parseProperties (out ++ strings.LF ++ noise) = parseProperties out).
Proof.
  split.
  - intros k v Hk Hkl Hvl.
    assert (Hline : hasByte (strings.byte 10) (k ++ "=" ++ v) = false).
    { clear Hk. induction k as [| c r IH];
        simpl in *.
      - exact Hvl.
      - apply orb_false_elim in Hkl as [Hc Hr]. rewrite Hc. exact (IH Hr). }
    rewrite (parseProperties_line out (k ++ "=" ++ v) Hline).
    unfold addProperty, strings.SplitN2.
    change (k ++ "=" ++ v) with (k ++ String "="%char v).
    rewrite (Cut_first _ k v Hk).
    assert (Hne : String.eqb (k ++ String "="%char v) "" = false)
      by (destruct k; reflexivity).
    rewrite Hne. unfold property. split.
    + rewrite lookup_insert_eq. reflexivity.
    + intros k' Hneq. rewrite lookup_insert_ne by congruence. reflexivity.
  - intros noise Hn Hl. rewrite (parseProperties_line out noise Hl).
    unfold addProperty, strings.SplitN2. rewrite (Cut_no_sep _ _ Hn).
    destruct (String.eqb noise ""); reflexivity.
Qed.

Lemma getSystemdStatus_reads_lines_witness :
  property
    (parseProperties
       (Sim.kubeletShow ++ strings.LF ++ "Environment" ++ "=" ++ "A=1 B=2"))
    "Environment" = "A=1 B=2".
Proof.
  exact (proj1 (proj1 (getSystemdStatus_reads_lines Sim.kubeletShow)
                  "Environment" "A=1 B=2" eq_refl eq_refl eq_refl)).
Defined.

(** X4: the dependencies of a unit are read line by line: those of two
    definitions put one after the other, on separate lines, are those of
    the first followed by those of the second. *)
Theorem getSystemdDependencies_app (serviceName d1 d2 : string) :
  getSystemdDependencies serviceName (d1 ++ strings.LF ++ d2)
  = (getSystemdDependencies serviceName d1
       ++ getSystemdDependencies serviceName d2)%list.
Proof.
  unfold getSystemdDependencies.
  change (d1 ++ strings.LF ++ d2) with (d1 ++ String (strings.byte 10) d2).
  rewrite Split_app_sep. apply flat_map_app.
Qed.

(** X5: a line whose key is [ExecStart] gives exactly one dependency: the
    command up to its first space, which therefore holds no space. *)
Theorem ExecStart_first_token (line k0 v0 : string) :
  strings.SplitN2 "="%char (strings.TrimSpace line) = [k0; v0] ->
  strings.TrimSpace k0 = "ExecStart" ->
  exists tok,
    lineDependencies line = [tok]
    /\ hasByte " "%char tok = false
    /\ (strings.TrimSpace v0 = tok
        \/ exists args, strings.TrimSpace v0 = tok ++ " " ++ args).
Proof.
  intros Hsplit Hkey. unfold lineDependencies. rewrite Hsplit, Hkey.
  change (String.eqb "ExecStart" "EnvironmentFile") with false.
  change (String.eqb "ExecStart" "ExecStart") with true. cbv iota.
  unfold strings.SplitN2.
  destruct (strings.Cut " "%char (strings.TrimSpace v0))
    as [[tok args] |] eqn:Hcut.
  - apply Cut_Some in Hcut as [Heq Hno].
    exists tok. split; [reflexivity |]. split; [exact Hno |].
    right. exists args. exact Heq.
  - exists (strings.TrimSpace v0). split; [reflexivity |].
    split; [| left; reflexivity].
    clear Hsplit. revert Hcut.
    generalize (strings.TrimSpace v0) as s.
    induction s as [| c r IH]; simpl; [reflexivity |].
    destruct (Ascii.eqb c " "%char); [discriminate |].
    destruct (strings.Cut " "%char r) as [[a b] |]; [discriminate |].
    intros _. apply IH. reflexivity.
Qed.

Lemma ExecStart_first_token_witness :
  exists tok,
    lineDependencies "ExecStart=/usr/local/bin/kubelet $DAEMON_ARGS" = [tok]
    /\ hasByte " "%char tok = false.
Proof.
  destruct (ExecStart_first_token
              "ExecStart=/usr/local/bin/kubelet $DAEMON_ARGS"
              "ExecStart" "/usr/local/bin/kubelet $DAEMON_ARGS"
              eq_refl eq_refl) as [tok [Hdeps [Hno _]]].
  exists tok. split; assumption.
Defined.

(** ** The calls of [RenderLocal], in their order *)

Section RenderOrder.

Context {H : Host}.

Lemma requestedAction_cases (e changes : Service) :
  requestedAction e changes = ""
  \/ requestedAction e changes = "restart"
  \/ requestedAction e changes = "stop".
Proof.
  unfold requestedAction.
  destruct (bool_decide _ && _); [| auto].
  destruct (fi.ValueOf (Running e)); auto.
Qed.

(** How the definition step ends: nothing to write; a panic on a desired
    definition that is nil; or the write, then the reload, the first
    failure being the last call. *)
Lemma writeDefinition_outcome (dir : string) (e changes : Service)
    (st : State) :
  exists (r : Result unit) (w' : World) (evs : list Event),
    writeDefinition dir e changes st
    = (r, {| world := w'; trace := (trace st ++ evs)%list |})
    /\ ((Definition_ changes = None /\ r = Ok tt /\ evs = []
         /\ w' = world st)
        \/ (Definition_ changes <> None /\ Definition_ e = None
            /\ r = Panic /\ evs = [] /\ w' = world st)
        \/ (exists c,
              Definition_ changes <> None /\ Definition_ e = Some c
              /\ ((r = Err ErrWritingServiceFile
                   /\ evs = [EvWriteFile (path_Join dir (Name e)) c])
                  \/ (r = Err ErrDaemonReload
                      /\ evs = [EvWriteFile (path_Join dir (Name e)) c;
                                daemonReload])
                  \/ (r = Ok tt
                      /\ evs = [EvWriteFile (path_Join dir (Name e)) c;
                                daemonReload])))).
Proof.
  unfold writeDefinition.
  destruct (Definition_ changes) as [c' |].
  - destruct (Definition_ e) as [c |].
    + rewrite bind_run, writeFile_run.
      destruct (fst (fi_WriteFile _ _ _ _ _)).
      * rewrite bind_run, combinedOutput_run. cbn [trace world].
        destruct (fst (exec_CombinedOutput _ _));
          eexists _, _,
            [EvWriteFile (path_Join dir (Name e)) c; daemonReload];
          (split; [rewrite <- app_assoc; reflexivity |]);
          right; right; exists c; (split; [discriminate |]);
          (split; [reflexivity |]); auto.
      * eexists _, _, [EvWriteFile (path_Join dir (Name e)) c].
        split; [reflexivity |].
        right; right; exists c. split; [discriminate |]. auto.
    + exists Panic, (world st), []. split.
      * unfold panic. rewrite app_nil_r. destruct st; reflexivity.
      * right; left. repeat split; discriminate.
  - exists (Ok tt), (world st), []. split.
    + rewrite app_nil_r. destruct st; reflexivity.
    + left. auto.
Qed.

(** How the smart restart ends, from any requested action. *)
Lemma smartRestart_outcome (dir : string) (a : option Service)
    (e : Service) (action : string) (st : State) :
  let stats :=
    map EvStat
      (smartRestartDependencies dir (Name e) (effectiveDefinition a e)) in
  exists (r : Result string) (w' : World) (evs : list Event),
    smartRestart dir a e action st
    = (r, {| world := w'; trace := (trace st ++ evs)%list |})
    /\ ((r = Ok action /\ evs = [] /\ w' = world st)
        \/ (r = Ok action /\ action = "" /\ evs = stats /\ w' = world st)
        \/ (action = "" /\ evs = (stats ++ [EvExec (showOf (Name e))])%list
            /\ (r = Ok "" \/ r = Ok "restart"
                \/ r = Err (ErrSystemdShow (Name e))
                \/ exists s, r = Err (ErrParseStartTimestamp s)))).
Proof.
  intros stats.
  destruct (fi.ValueOf (ManageState e) && fi.ValueOf (SmartRestart e)
            && String.eqb action "" && fi.ValueOf (Running e)
            && negb (String.eqb (effectiveDefinition a e) "")) eqn:Hc.
  - apply andb_prop in Hc as [Hc Hd].
    apply andb_prop in Hc as [Hc Hr].
    apply andb_prop in Hc as [Hc Ha].
    apply andb_prop in Hc as [Hm Hs].
    apply String.eqb_eq in Ha. subst action.
    assert (Hne : effectiveDefinition a e <> "").
    { intros Heq. rewrite Heq in Hd. discriminate Hd. }
    clear Hd.
    rewrite (smartRestart_examines dir a e st Hm Hs Hr Hne).
    fold stats.
    destruct (time.IsZero _).
    + exists (Ok ""), (world st), stats. split; [reflexivity |].
      right; left. auto.
    + cbv zeta.
      eexists _, _, (stats ++ [EvExec (showOf (Name e))])%list.
      split; [rewrite app_assoc; reflexivity |].
      right; right. split; [reflexivity |]. split; [reflexivity |].
      destruct (fst (exec_CombinedOutput _ _)) as [output | output];
        [| auto].
      destruct (String.eqb
                  (property (parseProperties output)
                     "ExecMainStartTimestamp") ""); [auto |].
      destruct (time_Parse _ _); [| eauto 6].
      destruct (time.Before _ _); auto.
  - rewrite (smartRestart_skips dir a e action st Hc).
    exists (Ok action), (world st), [].
    rewrite app_nil_r. split; [destruct st; reflexivity | auto].
Qed.

(** X6: the calls of [RenderLocal] come in one order, each at most once:
    the write of the unit file, the reload of the units, the examination
    of each dependency, the query of the service manager, one restart or
    stop, one enable or disable.  In particular it never starts a service
    otherwise than by a restart, and never enables or disables before it
    restarts or stops. *)
Theorem RenderLocal_call_order (w : World) (a : option Service)
    (e changes : Service) (dir : string) :
  result systemdSystemPath w = Ok dir ->
  exists ws ss acts es : list Event,
    events (RenderLocal a e changes) w = (ws ++ ss ++ acts ++ es)%list
    /\ (ws = []
        \/ exists c,
             Definition_ e = Some c
             /\ (ws = [EvWriteFile (path_Join dir (Name e)) c]
                 \/ ws = [EvWriteFile (path_Join dir (Name e)) c;
                          daemonReload]))
    /\ (ss = []
        \/ ss = map EvStat
                  (smartRestartDependencies dir (Name e)
                     (effectiveDefinition a e))
        \/ ss = (map EvStat
                   (smartRestartDependencies dir (Name e)
                      (effectiveDefinition a e))
                 ++ [EvExec (showOf (Name e))])%list)
    /\ (acts = []
        \/ acts = [EvExec ["systemctl"; "restart"; Name e; "--no-block"]]
        \/ acts = [EvExec ["systemctl"; "stop"; Name e; "--no-block"]])
    /\ (es = [] \/ es = [enablementOf e]).
Proof.
  intros Hdir. unfold events, run.
  rewrite RenderLocal_run; cbn [world]. rewrite Hdir, bind_run.
  destruct (writeDefinition_outcome dir e changes
              {| world := w; trace := [] |})
    as (r1 & w1 & ws & -> & Hws).
  cbn [trace app].
  assert (Hwshape :
      ws = []
      \/ exists c,
           Definition_ e = Some c
           /\ (ws = [EvWriteFile (path_Join dir (Name e)) c]
               \/ ws = [EvWriteFile (path_Join dir (Name e)) c;
                        daemonReload])).
  { destruct Hws as [(_ & _ & -> & _) | [(_ & _ & _ & -> & _)
                     | (c & _ & Hc & [(_ & ->) | [(_ & ->) | (_ & ->)]])]];
      eauto. }
  assert (Hstop : forall (A : Type) (r : Result A),
             exists ws' ss acts es : list Event,
               ws = (ws' ++ ss ++ acts ++ es)%list
               /\ (ws' = []
                   \/ exists c,
                        Definition_ e = Some c
                        /\ (ws' = [EvWriteFile (path_Join dir (Name e)) c]
                            \/ ws' = [EvWriteFile (path_Join dir (Name e)) c;
                                      daemonReload]))
               /\ (ss = []
                   \/ ss = map EvStat
                             (smartRestartDependencies dir (Name e)
                                (effectiveDefinition a e))
                   \/ ss = (map EvStat
                              (smartRestartDependencies dir (Name e)
                                 (effectiveDefinition a e))
                            ++ [EvExec (showOf (Name e))])%list)
               /\ (acts = []
                   \/ acts = [EvExec ["systemctl"; "restart"; Name e;
                                      "--no-block"]]
                   \/ acts = [EvExec ["systemctl"; "stop"; Name e;
                                      "--no-block"]])
               /\ (es = [] \/ es = [enablementOf e])).
  { intros _ _. exists ws, [], [], []. rewrite !app_nil_r. auto 6. }
  destruct r1 as [[] | err |]; cbn [snd trace];
    [| exact (Hstop unit (Err err)) | exact (Hstop unit Panic)].
  clear Hstop Hws.
  rewrite bind_run.
  destruct (smartRestart_outcome dir a e (requestedAction e changes)
              {| world := w1; trace := ws |})
    as (r2 & w2 & ss & -> & Hss).
  cbn [trace].
  assert (Hsshape :
      ss = []
      \/ ss = map EvStat
                (smartRestartDependencies dir (Name e)
                   (effectiveDefinition a e))
      \/ ss = (map EvStat
                 (smartRestartDependencies dir (Name e)
                    (effectiveDefinition a e))
               ++ [EvExec (showOf (Name e))])%list).
  { destruct Hss as [(_ & -> & _) | [(_ & _ & -> & _) | (_ & -> & _)]];
      auto. }
  assert (Hact : forall act, r2 = Ok act ->
             act = "" \/ act = "restart" \/ act = "stop").
  { intros act ->.
    pose proof (requestedAction_cases e changes) as Hreq.
    destruct Hss as [([= ->] & _) | [([= ->] & _)
                     | (_ & _ & [[= <-] | [[= <-] | [Hx | [s Hx]]]])]];
      auto; discriminate Hx. }
  destruct r2 as [act | err |]; cbn [snd trace];
    [| exists ws, ss, [], []; rewrite !app_nil_r; auto 6
     | exists ws, ss, [], []; rewrite !app_nil_r; auto 6].
  specialize (Hact act eq_refl). clear Hss.
  rewrite bind_run, applyAction_run.
  destruct (negb (String.eqb act "") && fi.ValueOf (ManageState e)) eqn:Hc.
  - assert (Hacts :
        [EvExec ["systemctl"; act; Name e; "--no-block"]]
        = [EvExec ["systemctl"; "restart"; Name e; "--no-block"]]
        \/ [EvExec ["systemctl"; act; Name e; "--no-block"]]
           = [EvExec ["systemctl"; "stop"; Name e; "--no-block"]]).
    { destruct Hact as [-> | [-> | ->]]; [discriminate Hc | auto | auto]. }
    cbv zeta. cbn [world trace].
    destruct (fst (exec_CombinedOutput _ w2)).
    + rewrite applyEnabled_run.
      destruct (bool_decide _ && _); cbn [snd trace].
      * exists ws, ss, [EvExec ["systemctl"; act; Name e; "--no-block"]],
          [enablementOf e].
        rewrite <- !app_assoc. split; [reflexivity |]. tauto.
      * exists ws, ss, [EvExec ["systemctl"; act; Name e; "--no-block"]],
          [].
        rewrite app_nil_r, <- !app_assoc. split; [reflexivity |]. tauto.
    + cbn [snd trace].
      exists ws, ss, [EvExec ["systemctl"; act; Name e; "--no-block"]], [].
      rewrite app_nil_r, <- !app_assoc. split; [reflexivity |]. tauto.
  - rewrite applyEnabled_run.
    destruct (bool_decide _ && _); cbn [snd trace].
    + exists ws, ss, [], [enablementOf e].
      rewrite <- !app_assoc. split; [reflexivity |]. tauto.
    + exists ws, ss, [], []. rewrite !app_nil_r. tauto.
Qed.

End RenderOrder.

Section RenderEdges.

Context {H : Host}.

Lemma serviceActions_show (name : string) :
  serviceActions [EvExec (showOf name)] = [].
Proof. reflexivity. Qed.

Lemma smartRestart_outcome_quiet (dir : string) (a : option Service)
    (e : Service) (action : string) (st : State) :
  exists (r : Result string) (w' : World) (evs : list Event),
    smartRestart dir a e action st
    = (r, {| world := w'; trace := (trace st ++ evs)%list |})
    /\ serviceActions evs = []
    /\ (r = Ok action \/ (r = Ok "restart" /\ action = "")
        \/ r = Err (ErrSystemdShow (Name e))
        \/ exists s, r = Err (ErrParseStartTimestamp s)).
Proof.
  destruct (smartRestart_outcome dir a e action st)
    as (r & w' & evs & Hrun & Hcase).
  exists r, w', evs. split; [exact Hrun |].
  destruct Hcase as [(-> & -> & _) | [(-> & _ & -> & _)
                     | (-> & -> & Hr)]].
  - auto.
  - split; [apply serviceActions_stats | auto].
  - split.
    + rewrite serviceActions_app, serviceActions_stats. reflexivity.
    + destruct Hr as [-> | [-> | [-> | [s ->]]]]; eauto.
Qed.

Lemma writeDefinition_outcome_quiet (dir : string) (e changes : Service)
    (st : State) :
  exists (r : Result unit) (w' : World) (evs : list Event),
    writeDefinition dir e changes st
    = (r, {| world := w'; trace := (trace st ++ evs)%list |})
    /\ serviceActions evs = []
    /\ (r = Ok tt \/ r = Panic \/ r = Err ErrWritingServiceFile
        \/ r = Err ErrDaemonReload).
Proof.
  destruct (writeDefinition_outcome dir e changes st)
    as (r & w' & evs & Hrun & Hcase).
  exists r, w', evs. split; [exact Hrun |].
  destruct Hcase as [(_ & -> & -> & _) | [(_ & _ & -> & -> & _)
                     | (c & _ & _ & [(-> & ->) | [(-> & ->) | (-> & ->)]])]];
    auto.
Qed.

Lemma quiet_no_enablement (evs : list Event) :
  serviceActions evs = [] ->
  forall ev, In ev evs -> isEnablementAction ev = false.
Proof.
  intros Hq ev Hin.
  destruct (isEnablementAction ev) eqn:Hev; [| reflexivity].
  exfalso.
  assert (Hf : In ev (serviceActions evs)).
  { unfold serviceActions. apply List.filter_In.
    split; [exact Hin |]. rewrite Hev. apply orb_true_r. }
  rewrite Hq in Hf. destruct Hf.
Qed.

Lemma action_not_enablement (act name : string) :
  act = "" \/ act = "restart" \/ act = "stop" ->
  isEnablementAction (EvExec ["systemctl"; act; name; "--no-block"]) = false.
Proof. intros [-> | [-> | ->]]; reflexivity. Qed.

(** X7: a failure ends [RenderLocal] at the call that failed.  When it
    returns the error of a restart or stop, that call is the last one and
    no enable or disable was attempted; when it returns the error of the
    enable or disable, that call is the last one; with any other error, and
    with a panic, the service was neither restarted, stopped, enabled nor
    disabled. *)
Theorem RenderLocal_stops_at_failure (w : World) (a : option Service)
    (e changes : Service) :
  match result (RenderLocal a e changes) w with
  | Ok _ => True
  | Err (ErrSystemctl action name) =>
      name = Name e
      /\ exists evs,
           events (RenderLocal a e changes) w
           = (evs ++ [EvExec ["systemctl"; action; name; "--no-block"]])%list
           /\ serviceActions evs = []
  | Err (ErrSystemctlArgs args) =>
      exists evs,
        events (RenderLocal a e changes) w = (evs ++ [enablementOf e])%list
        /\ forall ev, In ev evs -> isEnablementAction ev = false
  | _ => serviceActions (events (RenderLocal a e changes) w) = []
  end.
Proof.
  unfold result, events, run.
  rewrite RenderLocal_run; cbn [world].
  assert (Hperr : forall err, result systemdSystemPath w = Err err ->
             err = ErrUnknownDistro \/ err = ErrUnsupportedSystemd).
  { unfold result, run, systemdSystemPath, findDistribution, call.
    rewrite bind_run; cbn.
    destruct (FindDistribution "/" w); [| intros err [= <-]; auto].
    repeat case_match; intros err Herr; try discriminate Herr;
      injection Herr as <-; auto. }
  destruct (result systemdSystemPath w) as [dir | err |];
    cbn [fst snd trace];
    [| destruct (Hperr err eq_refl) as [-> | ->]; reflexivity
     | reflexivity].
  clear Hperr. rewrite bind_run.
  destruct (writeDefinition_outcome_quiet dir e changes
              {| world := w; trace := [] |})
    as (r1 & w1 & ws & -> & Hws & Hr1).
  cbn [trace app].
  destruct Hr1 as [-> | [-> | [-> | ->]]]; cbn [fst snd trace];
    try exact Hws.
  rewrite bind_run.
  destruct (smartRestart_outcome_quiet dir a e (requestedAction e changes)
              {| world := w1; trace := ws |})
    as (r2 & w2 & ss & -> & Hss & Hr2).
  cbn [trace].
  assert (Hquiet : serviceActions (ws ++ ss) = [])
    by (rewrite serviceActions_app, Hws, Hss; reflexivity).
  assert (Hres : (exists act, r2 = Ok act
                    /\ (act = "" \/ act = "restart" \/ act = "stop"))
                 \/ r2 = Err (ErrSystemdShow (Name e))
                 \/ exists s, r2 = Err (ErrParseStartTimestamp s)).
  { pose proof (requestedAction_cases e changes) as Hreq.
    destruct Hr2 as [-> | [(-> & _) | [-> | [s ->]]]]; eauto 6. }
  destruct Hres as [(act & -> & Hact) | [-> | [s ->]]]; cbn [fst snd trace];
    try exact Hquiet.
  rewrite bind_run, applyAction_run.
  destruct (negb (String.eqb act "") && fi.ValueOf (ManageState e)).
  - cbv zeta. cbn [world trace].
    destruct (fst (exec_CombinedOutput _ w2)); cbn [fst snd trace].
    + rewrite applyEnabled_run.
      destruct (bool_decide _ && _); cbn [fst snd trace]; [| exact I].
      cbv zeta.
      destruct (fst (exec_CombinedOutput _ _)); [exact I |].
      eexists. split; [reflexivity |].
      intros ev Hin. apply in_app_or in Hin as [Hin | [Heq | []]].
      * exact (quiet_no_enablement _ Hquiet ev Hin).
      * rewrite <- Heq. apply action_not_enablement, Hact.
    + split; [reflexivity |]. eexists. split; [reflexivity | exact Hquiet].
  - rewrite applyEnabled_run.
    destruct (bool_decide _ && _); cbn [fst snd trace]; [| exact I].
    cbv zeta.
    destruct (fst (exec_CombinedOutput _ _)); [exact I |].
    eexists. split; [reflexivity |].
    exact (quiet_no_enablement _ Hquiet).
Qed.

End RenderEdges.

Section RenderCases.

Context {H : Host}.

(** X8: an explicit change of the run state goes before the smart
    restart.  On a machine whose unit directory resolves, when the task
    manages the state, [Running] is set in the changes and [Definition] is
    not, [RenderLocal] examines no file and asks the service manager
    nothing: its first command restarts a service desired running and
    stops one desired stopped; if that command fails its error is
    returned and nothing follows, and if it succeeds the enable or disable
    follows when [Enabled] is set in the changes. *)
Theorem RenderLocal_explicit_run_state (w : World) (a : option Service)
    (e changes : Service) (dir : string) :
  result systemdSystemPath w = Ok dir ->
  fi.ValueOf (ManageState e) = true ->
  Running changes <> None ->
  Definition_ changes = None ->
  let action := if fi.ValueOf (Running e) then "restart" else "stop" in
  let argv := ["systemctl"; action; Name e; "--no-block"] in
  events (RenderLocal a e changes) w
  = match fst (exec_CombinedOutput argv w) with
    | ExecOk _ =>
        if bool_decide (Enabled changes <> None)
        then [EvExec argv; enablementOf e]
        else [EvExec argv]
    | ExecFailed _ => [EvExec argv]
    end
  /\ (forall output,
        fst (exec_CombinedOutput argv w) = ExecFailed output ->
        result (RenderLocal a e changes) w
        = Err (ErrSystemctl action (Name e))).
Proof.
  intros Hdir Hm Hr Hd action argv.
  assert (Hreq : requestedAction e changes = action).
  { unfold requestedAction. rewrite Hm, bool_decide_eq_true_2 by exact Hr.
    reflexivity. }
  assert (Hne : String.eqb action "" = false)
    by (unfold action; destruct (fi.ValueOf (Running e)); reflexivity).
  unfold events, result, run.
  rewrite RenderLocal_run; cbn [world].
  rewrite Hdir, bind_run, (writeDefinition_unchanged dir e changes _ Hd),
    bind_run, Hreq.
  rewrite smartRestart_skips
    by (rewrite Hne, !andb_false_r; reflexivity).
  rewrite bind_run, applyAction_run, Hne, Hm. cbn [negb andb].
  cbv zeta. fold argv. cbn [world trace app].
  destruct (fst (exec_CombinedOutput argv w)) as [output | output].
  - rewrite applyEnabled_run, Hm, andb_true_r.
    destruct (bool_decide (Enabled changes <> None)); cbn [snd trace app].
    + split; [reflexivity | intros ? [=]].
    + split; [reflexivity | intros ? [=]].
  - split; [reflexivity | intros _ _; reflexivity].
Qed.

(** X9: with no field set in the changes and nothing for the smart
    restart to do (the state is not managed, or smart restart is off, or
    the service is not desired running, or no definition is in effect),
    [RenderLocal] writes no file, examines none and runs no command, and
    the machine is as before: all it asked for is the distribution.  It
    succeeds when the unit directory resolves, and returns the error of
    [systemdSystemPath] when it does not. *)
Theorem RenderLocal_no_changes (w : World) (a : option Service)
    (e changes : Service) :
  Definition_ changes = None ->
  Running changes = None ->
  Enabled changes = None ->
  (fi.ValueOf (ManageState e) = false
   \/ fi.ValueOf (SmartRestart e) = false
   \/ fi.ValueOf (Running e) = false
   \/ effectiveDefinition a e = "") ->
  events (RenderLocal a e changes) w = []
  /\ final (RenderLocal a e changes) w = w
  /\ (forall dir,
        result systemdSystemPath w = Ok dir ->
        result (RenderLocal a e changes) w = Ok tt)
  /\ (forall err,
        result systemdSystemPath w = Err err ->
        result (RenderLocal a e changes) w = Err err).
Proof.
  intros Hd Hr He Hskip.
  change (result (RenderLocal a e changes) w)
    with (fst (run (RenderLocal a e changes) w)).
  unfold events, final, run.
  rewrite RenderLocal_run; cbn [world].
  pose proof (systemdSystemPath_no_panic w) as Hnp.
  destruct (result systemdSystemPath w) as [dir | err |];
    [| repeat split; [discriminate | intros ? [= <-]; reflexivity]
     | contradiction].
  rewrite bind_run, (writeDefinition_unchanged dir e changes _ Hd),
    bind_run, (requestedAction_unset e changes Hr).
  rewrite smartRestart_skips.
  - rewrite bind_run, applyAction_run. cbn [String.eqb negb andb].
    rewrite applyEnabled_run, He.
    rewrite bool_decide_eq_false_2 by (intros Hx; apply Hx; reflexivity).
    cbn [andb]. repeat split; discriminate.
  - destruct Hskip as [-> | [-> | [-> | ->]]];
      rewrite ?andb_false_r; reflexivity.
Qed.

(** X10: on a machine whose unit directory resolves, when the smart
    restart looks at the dependencies (the state is managed, smart restart
    is on, the service is desired running with a definition in effect, and
    neither [Running] nor [Definition] is set in the changes) and none of
    them can be examined, not even the unit file: [RenderLocal] tries
    each file in turn, and then neither asks the service manager for the
    status nor restarts the service.  The one command that may follow is
    the enable or disable, when [Enabled] is set in the changes; when it
    is not, [RenderLocal] succeeds and the machine is as before. *)
Theorem RenderLocal_nothing_to_examine (w : World) (a : option Service)
    (e changes : Service) (dir : string) :
  result systemdSystemPath w = Ok dir ->
  fi.ValueOf (ManageState e) = true ->
  fi.ValueOf (SmartRestart e) = true ->
  fi.ValueOf (Running e) = true ->
  effectiveDefinition a e <> "" ->
  Definition_ changes = None ->
  Running changes = None ->
  (forall dep,
      In dep (smartRestartDependencies dir (Name e)
                (effectiveDefinition a e)) ->
      os_Stat dep w = None) ->
  events (RenderLocal a e changes) w
  = (map EvStat
       (smartRestartDependencies dir (Name e) (effectiveDefinition a e))
     ++ (if bool_decide (Enabled changes <> None) then [enablementOf e]
         else []))%list
  /\ (Enabled changes = None ->
      result (RenderLocal a e changes) w = Ok tt
      /\ final (RenderLocal a e changes) w = w).
Proof.
  intros Hdir Hm Hs Hrun Hdef Hd Hr Hnone.
  assert (Hnew : forall deps n,
             (forall dep, In dep deps -> os_Stat dep w = None) ->
             newestOf w deps n = n).
  { induction deps as [| d ds IH]; intros n Hall; [reflexivity |].
    rewrite newestOf_cons, (Hall d (or_introl eq_refl)).
    apply IH. intros dep Hin. apply Hall. right. exact Hin. }
  unfold result, events, final, run.
  rewrite RenderLocal_run; cbn [world].
  rewrite Hdir, bind_run, (writeDefinition_unchanged dir e changes _ Hd),
    bind_run, (requestedAction_unset e changes Hr).
  rewrite (smartRestart_examines dir a e _ Hm Hs Hrun Hdef).
  cbn [world trace app]. rewrite (Hnew _ _ Hnone).
  change (time.IsZero time.zero) with true. cbv iota.
  rewrite bind_run, applyAction_run. cbn [String.eqb negb andb].
  rewrite applyEnabled_run, Hm, andb_true_r.
  destruct (bool_decide_reflect (Enabled changes <> None)) as [Hset | Hunset].
  - cbv zeta. cbn [snd trace]. split; [reflexivity |].
    intros Hx. contradiction.
  - cbn [fst snd trace world]. rewrite app_nil_r. auto.
Qed.

(** X11: what the smart restart makes of the start timestamp.  On a
    machine whose unit directory resolves, when the smart restart looks at
    the dependencies (the state is managed, smart restart is on, the
    service is desired running with a definition in effect, and neither
    [Running] nor [Definition] is set in the changes), one of them could
    be examined and the service manager answered the query: an empty
    [ExecMainStartTimestamp] means no restart, and of restart, stop,
    enable and disable [RenderLocal] runs only the enable or disable that
    [Enabled] in the changes asks for; a timestamp that is not empty and
    cannot be parsed is returned as an error, and [RenderLocal] runs none
    of the four. *)
Theorem RenderLocal_start_timestamp (w : World) (a : option Service)
    (e changes : Service) (dir output : string) :
  result systemdSystemPath w = Ok dir ->
  fi.ValueOf (ManageState e) = true ->
  fi.ValueOf (SmartRestart e) = true ->
  fi.ValueOf (Running e) = true ->
  effectiveDefinition a e <> "" ->
  Definition_ changes = None ->
  Running changes = None ->
  newestOf w
    (smartRestartDependencies dir (Name e) (effectiveDefinition a e))
    time.zero <> 0 ->
  fst (exec_CombinedOutput (showOf (Name e)) w) = ExecOk output ->
  let startedAt :=
    property (parseProperties output) "ExecMainStartTimestamp" in
  (startedAt = "" ->
   serviceActions (events (RenderLocal a e changes) w)
   = if bool_decide (Enabled changes <> None) then [enablementOf e] else [])
  /\ (startedAt <> "" ->
      time_Parse startTimestampLayout startedAt = None ->
      result (RenderLocal a e changes) w
      = Err (ErrParseStartTimestamp startedAt)
      /\ serviceActions (events (RenderLocal a e changes) w) = []).
Proof.
  intros Hdir Hm Hs Hrun Hdef Hd Hr Hnew Hshow startedAt.
  assert (Hen : serviceActions [enablementOf e] = [enablementOf e])
    by (unfold enablementOf; destruct (fi.ValueOf (Enabled e)); reflexivity).
  unfold result, events, run.
  rewrite RenderLocal_run; cbn [world].
  rewrite Hdir, bind_run, (writeDefinition_unchanged dir e changes _ Hd),
    bind_run, (requestedAction_unset e changes Hr).
  rewrite (smartRestart_examines dir a e _ Hm Hs Hrun Hdef).
  cbn [world trace app].
  unfold time.IsZero.
  destruct (Z.eqb_spec
              (newestOf w
                 (smartRestartDependencies dir (Name e)
                    (effectiveDefinition a e)) time.zero) 0)
    as [Hz | _]; [contradiction |].
  rewrite Hshow. cbv zeta. fold startedAt.
  split.
  - intros ->. cbn [String.eqb]. cbv iota.
    rewrite bind_run, applyAction_run. cbn [String.eqb negb andb].
    rewrite applyEnabled_run, Hm, andb_true_r.
    destruct (bool_decide (Enabled changes <> None)); cbn [snd trace].
    + rewrite !serviceActions_app, serviceActions_stats, Hen. reflexivity.
    + rewrite !serviceActions_app, serviceActions_stats. reflexivity.
  - intros Hne Hparse.
    destruct (String.eqb_spec startedAt "") as [Heq | _]; [contradiction |].
    rewrite Hparse. cbn [fst snd trace].
    split; [reflexivity |].
    rewrite !serviceActions_app, serviceActions_stats. reflexivity.
Qed.

(** X12: [Find] writes no file, examines none and runs at most one
    command, the query [systemctl show --all] of the service.  It runs the
    query exactly when the unit directory resolved and reading the unit
    file gave its contents; in every other case (no directory, no unit
    file, an error reading it) it runs no command and the machine is as
    before.  The snapshot it returns bears the name of the task and always
    tells whether the service runs; one with a definition also tells
    whether it is enabled; one without a definition is that of a stopped
    service, and no command was run for it. *)
Theorem Find_only_queries (w : World) (e : Service) :
  events (Find e) w
  = match result systemdSystemPath w with
    | Ok dir =>
        match os_ReadFile (path_Join dir (Name e)) w with
        | ReadOk _ => [EvExec (showOf (Name e))]
        | ReadNotExist | ReadFailed => []
        end
    | Err _ | Panic => []
    end
  /\ (events (Find e) w = [] -> final (Find e) w = w)
  /\ (forall actual,
        result (Find e) w = Ok actual ->
        Name actual = Name e
        /\ Running actual <> None
        /\ (Definition_ actual = None ->
            Running actual = Some false /\ events (Find e) w = [])
        /\ (Definition_ actual <> None -> Enabled actual <> None)).
Proof.
  change (result (Find e) w) with (fst (run (Find e) w)).
  unfold events, final, run. rewrite Find_run; cbn [world trace].
  destruct (result systemdSystemPath w) as [dir | err |];
    cbn [fst snd trace world];
    [| split; [reflexivity | split; [reflexivity | discriminate]]
     | split; [reflexivity | split; [reflexivity | discriminate]]].
  destruct (os_ReadFile _ w) as [d | |]; cbn [fst snd trace world app].
  - split; [reflexivity |]. split; [discriminate |].
    intros actual.
    destruct (fst (exec_CombinedOutput _ w)); [| discriminate].
    intros [= <-]. cbn. repeat split; discriminate.
  - split; [reflexivity |]. split; [reflexivity |].
    intros actual [= <-]. cbn. repeat split; try discriminate.
    intros Hx. contradiction.
  - split; [reflexivity |]. split; [reflexivity | discriminate].
Qed.

End RenderCases.

(** ** The further properties on the simulated machine *)

Lemma RenderLocal_call_order_witness :
  exists ws ss acts es : list Event,
    events (H := Sim.host)
      (RenderLocal (Some Sim.kubeletDisabled) Sim.kubelet Sim.allChanges)
      (Sim.kubeletMachine Sim.at0900 Sim.at0700)
    = (ws ++ ss ++ acts ++ es)%list
    /\ (acts = []
        \/ acts = [EvExec ["systemctl"; "restart"; Name Sim.kubelet;
                           "--no-block"]]
        \/ acts = [EvExec ["systemctl"; "stop"; Name Sim.kubelet;
                           "--no-block"]])
    /\ (es = [] \/ es = [enablementOf Sim.kubelet]).
Proof.
  assert (Hdir : result (H := Sim.host) systemdSystemPath
                   (Sim.kubeletMachine Sim.at0900 Sim.at0700)
                 = Ok "/lib/systemd/system") by (vm_compute; reflexivity).
  destruct (RenderLocal_call_order (H := Sim.host)
              (Sim.kubeletMachine Sim.at0900 Sim.at0700)
              (Some Sim.kubeletDisabled) Sim.kubelet Sim.allChanges
              "/lib/systemd/system" Hdir)
    as (ws & ss & acts & es & Hev & _ & _ & Hacts & Hes).
  exists ws, ss, acts, es. split; [exact Hev |]. split; assumption.
Defined.

Lemma RenderLocal_explicit_run_state_witness :
  events (H := Sim.host)
    (RenderLocal (Some Sim.kubelet) Sim.kubelet Cases.runningChanged)
    (Sim.kubeletMachine Sim.at0900 Sim.at0700)
  = [EvExec ["systemctl"; "restart"; "kubelet.service"; "--no-block"]].
Proof.
  assert (Hdir : result (H := Sim.host) systemdSystemPath
                   (Sim.kubeletMachine Sim.at0900 Sim.at0700)
                 = Ok "/lib/systemd/system") by (vm_compute; reflexivity).
  assert (Hr : Running Cases.runningChanged <> None) by discriminate.
  exact (proj1 (RenderLocal_explicit_run_state (H := Sim.host)
                  (Sim.kubeletMachine Sim.at0900 Sim.at0700)
                  (Some Sim.kubelet) Sim.kubelet Cases.runningChanged
                  "/lib/systemd/system" Hdir eq_refl Hr eq_refl)).
Defined.

Lemma RenderLocal_no_changes_witness :
  events (H := Sim.host)
    (RenderLocal (Some Sim.kubelet) Cases.kubeletNoSmartRestart
       Sim.noChanges)
    (Sim.kubeletMachine Sim.at0900 Sim.at0700) = []
  /\ result (H := Sim.host)
       (RenderLocal (Some Sim.kubelet) Cases.kubeletNoSmartRestart
          Sim.noChanges)
       (Sim.kubeletMachine Sim.at0900 Sim.at0700) = Ok tt.
Proof.
  assert (Hdir : result (H := Sim.host) systemdSystemPath
                   (Sim.kubeletMachine Sim.at0900 Sim.at0700)
                 = Ok "/lib/systemd/system") by (vm_compute; reflexivity).
  destruct (RenderLocal_no_changes (H := Sim.host)
              (Sim.kubeletMachine Sim.at0900 Sim.at0700)
              (Some Sim.kubelet) Cases.kubeletNoSmartRestart
              Sim.noChanges eq_refl eq_refl eq_refl
              (or_intror (or_introl eq_refl)))
    as (Hev & _ & Hok & _).
  split; [exact Hev | exact (Hok _ Hdir)].
Defined.

Lemma RenderLocal_nothing_to_examine_witness :
  result (H := Sim.host)
    (RenderLocal None Sim.kubelet Sim.noChanges)
    (Sim.bareMachine (Some Sim.debian)) = Ok tt.
Proof.
  assert (Hdir : result (H := Sim.host) systemdSystemPath
                   (Sim.bareMachine (Some Sim.debian))
                 = Ok "/lib/systemd/system") by (vm_compute; reflexivity).
  assert (Hdef : effectiveDefinition None Sim.kubelet <> "")
    by (vm_compute; discriminate).
  assert (Hnone : forall dep,
             In dep (smartRestartDependencies (H := Sim.host)
                       "/lib/systemd/system" (Name Sim.kubelet)
                       (effectiveDefinition None Sim.kubelet)) ->
             os_Stat (Host := Sim.host) dep
               (Sim.bareMachine (Some Sim.debian)) = None).
  { intros dep _. cbn. unfold Sim.statFile. cbn.
    rewrite lookup_empty. reflexivity. }
  exact (proj1 (proj2 (RenderLocal_nothing_to_examine (H := Sim.host)
                         (Sim.bareMachine (Some Sim.debian)) None
                         Sim.kubelet Sim.noChanges "/lib/systemd/system"
                         Hdir eq_refl eq_refl eq_refl Hdef eq_refl eq_refl
                         Hnone) eq_refl)).
Defined.

Lemma RenderLocal_start_timestamp_witness :
  serviceActions
    (events (H := Sim.host)
       (RenderLocal (Some Sim.kubeletDisabled) Sim.kubelet
          Sim.enabledChanged)
       Cases.machineWithoutStart)
  = [enablementOf Sim.kubelet].
Proof.
  assert (Hdir : result (H := Sim.host) systemdSystemPath
                   Cases.machineWithoutStart
                 = Ok "/lib/systemd/system") by (vm_compute; reflexivity).
  assert (Hdef : effectiveDefinition (Some Sim.kubeletDisabled) Sim.kubelet
                 <> "") by (vm_compute; discriminate).
  assert (Hnew : newestOf (H := Sim.host) Cases.machineWithoutStart
                   (smartRestartDependencies (H := Sim.host)
                      "/lib/systemd/system" (Name Sim.kubelet)
                      (effectiveDefinition (Some Sim.kubeletDisabled)
                         Sim.kubelet))
                   time.zero <> 0) by (vm_compute; discriminate).
  assert (Hshow : fst (exec_CombinedOutput (Host := Sim.host)
                         (showOf (Name Sim.kubelet))
                         Cases.machineWithoutStart)
                  = ExecOk ("ActiveState=active" ++ strings.LF))
    by (vm_compute; reflexivity).
  assert (Hempty : property
                     (parseProperties ("ActiveState=active" ++ strings.LF))
                     "ExecMainStartTimestamp" = "")
    by (vm_compute; reflexivity).
  exact (proj1 (RenderLocal_start_timestamp (H := Sim.host)
                  Cases.machineWithoutStart (Some Sim.kubeletDisabled)
                  Sim.kubelet Sim.enabledChanged "/lib/systemd/system"
                  ("ActiveState=active" ++ strings.LF)
                  Hdir eq_refl eq_refl eq_refl Hdef eq_refl eq_refl
                  Hnew Hshow) Hempty).
Defined.

(** ** The install variant *)

(** X13: an install service depends on exactly the tasks of the set that
    are not install services: never on itself or on another install
    service, and on every other task. *)
Theorem InstallGetDependencies_others (tasks : gmap string InstallTask) :
  (forall v, In v (InstallGetDependencies tasks) ->
     (exists k, tasks !! k = Some v)
     /\ forall s, v <> IInstallService s)
  /\ (forall k typeName id,
        tasks !! k = Some (IOtherTask typeName id) ->
        In (IOtherTask typeName id) (InstallGetDependencies tasks))
  /\ (length (InstallGetDependencies tasks) <= size tasks)%nat.
Proof.
  unfold InstallGetDependencies. split; [| split].
  - intros v Hin. apply in_flat_map in Hin as [x [Hx Hv]].
    destruct x as [s | tn id]; [destruct Hv |].
    destruct Hv as [<- | []].
    split; [| discriminate].
    apply in_map_iff in Hx as [[k y] [Heq Hin]]; cbn in Heq; subst y.
    exists k. apply elem_of_map_to_list, list_elem_of_In, Hin.
  - intros k tn id Hk. apply in_flat_map.
    exists (IOtherTask tn id). split; [| left; reflexivity].
    apply in_map_iff. exists (k, IOtherTask tn id).
    split; [reflexivity |].
    apply list_elem_of_In, elem_of_map_to_list, Hk.
  - rewrite <- length_map_to_list, <- (length_map snd (map_to_list tasks)).
    generalize (map snd (map_to_list tasks)) as l.
    induction l as [| x l IH]; [reflexivity |].
    cbn [flat_map]. rewrite length_app.
    destruct x; cbn [installDependenciesOn length]; lia.
Qed.

(** ** Helpers of the GCE TPM verifier *)

Lemma LastIndex_absent (sep : ascii) (s : string) :
  hasByte sep s = false -> gcetpmverifier.LastIndex sep s = -1.
Proof.
  induction s as [| c r IH]; simpl; [reflexivity |].
  intros Hb. apply orb_false_elim in Hb as [Hc Hr].
  rewrite (IH Hr), Hc. reflexivity.
Qed.

Lemma LastIndex_present (sep : ascii) (s : string) :
  hasByte sep s = true -> 0 <= gcetpmverifier.LastIndex sep s.
Proof.
  induction s as [| c r IH]; simpl; [discriminate |].
  intros Hb.
  destruct (Z.leb_spec 0 (gcetpmverifier.LastIndex sep r)); [lia |].
  destruct (Ascii.eqb c sep); [lia |].
  cbn [orb] in Hb. specialize (IH Hb). lia.
Qed.

(** [lastComponent], one byte at a time. *)
Lemma lastComponent_String (c : ascii) (r : string) :
  gcetpmverifier.lastComponent (String c r) =
  if hasByte "/"%char r then gcetpmverifier.lastComponent r
  else if Ascii.eqb c "/"%char then r
  else String c r.
Proof.
  unfold gcetpmverifier.lastComponent. cbn [gcetpmverifier.LastIndex].
  destruct (hasByte "/"%char r) eqn:Hr.
  - pose proof (LastIndex_present _ _ Hr) as Hi.
    destruct (Z.leb_spec 0 (gcetpmverifier.LastIndex "/"%char r)); [| lia].
    destruct (Z.eqb_spec (gcetpmverifier.LastIndex "/"%char r + 1) (-1)); [lia |].
    destruct (Z.eqb_spec (gcetpmverifier.LastIndex "/"%char r) (-1)); [lia |].
    cbn [negb].
    replace (Z.to_nat (gcetpmverifier.LastIndex "/"%char r + 1 + 1))
      with (S (Z.to_nat (gcetpmverifier.LastIndex "/"%char r + 1))) by lia.
    reflexivity.
  - rewrite (LastIndex_absent _ _ Hr). cbn.
    destruct (Ascii.eqb c "/"%char); reflexivity.
Qed.

Lemma lastComponent_whole (s : string) :
  hasByte "/"%char s = false -> gcetpmverifier.lastComponent s = s.
Proof.
  intros Hs. unfold gcetpmverifier.lastComponent.
  rewrite (LastIndex_absent _ _ Hs). reflexivity.
Qed.

Lemma hasByte_app (c : ascii) (a b : string) :
  hasByte c (a ++ b) = hasByte c a || hasByte c b.
Proof.
  induction a as [| x a IH]; simpl; [reflexivity |].
  rewrite IH, orb_assoc. reflexivity.
Qed.

(** X14: [lastComponent] returns what follows the last slash: its result
    holds no slash and is a suffix of the string, preceded there by a
    slash unless the result is the whole string; a string without a slash
    is returned whole. *)
Theorem lastComponent_after_last_slash (s : string) :
  hasByte "/"%char (gcetpmverifier.lastComponent s) = false
  /\ (s = gcetpmverifier.lastComponent s
      \/ exists before, s = before ++ "/" ++ gcetpmverifier.lastComponent s)
  /\ (hasByte "/"%char s = false -> gcetpmverifier.lastComponent s = s).
Proof.
  induction s as [| c r (IHno & IHsuf & IHid)].
  - repeat split; auto.
  - rewrite lastComponent_String.
    destruct (hasByte "/"%char r) eqn:Hr.
    + split; [exact IHno |]. split.
      * right. destruct IHsuf as [Heq | [before Heq]].
        -- rewrite <- Heq in IHno. congruence.
        -- exists (String c before). rewrite Heq at 1. reflexivity.
      * simpl. rewrite Hr, orb_true_r. discriminate.
    + destruct (Ascii.eqb_spec c "/"%char) as [-> | Hne].
      * split; [exact Hr |]. split; [right; exists ""; reflexivity |].
        simpl. discriminate.
      * split.
        -- simpl. rewrite Hr.
           destruct (Ascii.eqb_spec c "/"%char); [contradiction | reflexivity].
        -- split; [left; reflexivity | reflexivity].
Qed.

(** X15: only what follows the last slash counts: whatever comes before a
    slash does not change the last component. *)
Theorem lastComponent_app (a b : string) :
  gcetpmverifier.lastComponent (a ++ "/" ++ b) = gcetpmverifier.lastComponent b.
Proof.
  induction a as [| c a IH].
  - change ("" ++ "/" ++ b) with (String "/"%char b).
    rewrite lastComponent_String.
    destruct (hasByte "/"%char b) eqn:Hb; [reflexivity |].
    cbn. symmetry.
    apply lastComponent_whole. exact Hb.
  - change (String c a ++ "/" ++ b) with (String c (a ++ "/" ++ b)).
    rewrite lastComponent_String, hasByte_app. simpl.
    rewrite orb_true_r. exact IH.
Qed.


(** The names of one interface: its addresses that are not empty, the
    IPv4 one first; and the loop, one interface at a time. *)
Lemma gatherNames_cons (iface : gcetpmverifier.NetworkInterface)
    (rest : list gcetpmverifier.NetworkInterface) :
  gcetpmverifier.gatherNames [] (iface :: rest) =
  match List.filter (fun s => negb (String.eqb s ""))
          [gcetpmverifier.NetworkIP iface;
           gcetpmverifier.Ipv6Address iface] with
  | [] => gcetpmverifier.gatherNames [] rest
  | names => names
  end.
Proof.
  cbn [gcetpmverifier.gatherNames List.filter].
  destruct (String.eqb (gcetpmverifier.NetworkIP iface) "");
    destruct (String.eqb (gcetpmverifier.Ipv6Address iface) "");
    reflexivity.
Qed.

(** X16: the certificate names of an instance are the addresses of the
    first network interface that has one: its IPv4 address, then its IPv6
    address, those that are not empty.  So there are at most two names,
    none of them empty, and there is none exactly when no interface has
    an address. *)
Theorem GetInstanceCertificateAlternateNames_first_interface
    (ifaces : list gcetpmverifier.NetworkInterface) :
  (gcetpmverifier.GetInstanceCertificateAlternateNames ifaces = []
   <-> forall iface, In iface ifaces ->
         gcetpmverifier.NetworkIP iface = ""
         /\ gcetpmverifier.Ipv6Address iface = "")
  /\ (gcetpmverifier.GetInstanceCertificateAlternateNames ifaces <> [] ->
      exists before iface after,
        ifaces = (before ++ iface :: after)%list
        /\ (forall i, In i before ->
              gcetpmverifier.NetworkIP i = ""
              /\ gcetpmverifier.Ipv6Address i = "")
        /\ gcetpmverifier.GetInstanceCertificateAlternateNames ifaces
           = List.filter (fun s => negb (String.eqb s ""))
               [gcetpmverifier.NetworkIP iface;
                gcetpmverifier.Ipv6Address iface])
  /\ (length (gcetpmverifier.GetInstanceCertificateAlternateNames ifaces)
      <= 2)%nat
  /\ ~ In "" (gcetpmverifier.GetInstanceCertificateAlternateNames ifaces).
Proof.
  unfold gcetpmverifier.GetInstanceCertificateAlternateNames.
  induction ifaces as [| iface rest (IHnil & IHsome & IHlen & IHne)].
  - cbn. split; [split; [intros _ ? [] | reflexivity] |].
    split; [intros Hx; contradiction |]. split; [lia | intros []].
  - rewrite gatherNames_cons. cbn [List.filter].
    destruct (String.eqb_spec (gcetpmverifier.NetworkIP iface) "")
      as [Hip | Hip];
      destruct (String.eqb_spec (gcetpmverifier.Ipv6Address iface) "")
        as [Hip6 | Hip6]; cbn [negb].
    + (* no address on this interface *)
      split; [| split; [| split; assumption]].
      * rewrite IHnil. split.
        -- intros Hall i [<- | Hin]; [split; assumption | exact (Hall i Hin)].
        -- intros Hall i Hin. apply Hall. right. exact Hin.
      * intros Hne. destruct (IHsome Hne) as (before & i & after & -> & Hb & Hn).
        exists (iface :: before), i, after.
        split; [reflexivity |]. split; [| exact Hn].
        intros j [<- | Hin]; [split; assumption | exact (Hb j Hin)].
    + split; [split; [discriminate |] |].
      * intros Hall. destruct (Hall iface (or_introl eq_refl)) as [_ Hx].
        contradiction.
      * split; [| split; [cbn; lia | intros [Hx | []]; congruence]].
        intros _. exists [], iface, rest.
        split; [reflexivity |]. split; [intros ? [] |].
        cbn [List.filter]. rewrite Hip. cbn.
        destruct (String.eqb_spec (gcetpmverifier.Ipv6Address iface) "");
          [contradiction | reflexivity].
    + split; [split; [discriminate |] |].
      * intros Hall. destruct (Hall iface (or_introl eq_refl)) as [Hx _].
        contradiction.
      * split; [| split; [cbn; lia | intros [Hx | []]; congruence]].
        intros _. exists [], iface, rest.
        split; [reflexivity |]. split; [intros ? [] |].
        cbn [List.filter]. rewrite Hip6. cbn.
        destruct (String.eqb_spec (gcetpmverifier.NetworkIP iface) "");
          [contradiction | reflexivity].
    + split; [split; [discriminate |] |].
      * intros Hall. destruct (Hall iface (or_introl eq_refl)) as [Hx _].
        contradiction.
      * split; [| split; [cbn; lia
                         | intros [Hx | [Hx | []]]; congruence]].
        intros _. exists [], iface, rest.
        split; [reflexivity |]. split; [intros ? [] |].
        cbn [List.filter].
        destruct (String.eqb_spec (gcetpmverifier.NetworkIP iface) "");
          [contradiction |].
        destruct (String.eqb_spec (gcetpmverifier.Ipv6Address iface) "");
          [contradiction | reflexivity].
Qed.

(** ** Assignments of package cloudup *)

Lemma bigEndian_snoc (ip : list Z) (b : Z) :
  cloudup.bigEndian (ip ++ [b]) = cloudup.bigEndian ip * 256 + b.
Proof. unfold cloudup.bigEndian. rewrite fold_left_app. reflexivity. Qed.

Lemma bigEndian_zeros (ip : list Z) (k : nat) :
  cloudup.bigEndian (ip ++ replicate k 0)
  = cloudup.bigEndian ip * 256 ^ Z.of_nat k.
Proof.
  revert ip. induction k as [| k IH]; intros ip.
  - cbn [replicate]. rewrite app_nil_r. cbn. lia.
  - cbn [replicate].
    change (ip ++ 0 :: replicate k 0)%list
      with (ip ++ [0] ++ replicate k 0)%list.
    rewrite app_assoc, IH, bigEndian_snoc, Nat2Z.inj_succ, Z.pow_succ_r
      by lia. lia.
Qed.

Lemma bigEndian_bound (ip : list Z) :
  Forall cloudup.isByte ip ->
  0 <= cloudup.bigEndian ip < 256 ^ Z.of_nat (length ip).
Proof.
  induction ip as [| b ip IH] using rev_ind; intros Hall.
  - cbn. lia.
  - apply Forall_app in Hall as [Hip Hb].
    apply Forall_inv in Hb. unfold cloudup.isByte in Hb.
    specialize (IH Hip).
    rewrite bigEndian_snoc, length_app, Nat2Z.inj_add. cbn [length].
    change (Z.of_nat 1) with 1.
    rewrite Z.pow_add_r, Z.pow_1_r by lia. lia.
Qed.

Lemma incrementFrom_carry (pre : list Z) (k : nat) :
  Forall cloudup.isByte pre ->
  let r := cloudup.incrementFrom (length pre) (pre ++ replicate k 0) in
  length r = (length pre + k)%nat
  /\ Forall cloudup.isByte r
  /\ cloudup.bigEndian r
     = (cloudup.bigEndian pre * 256 ^ Z.of_nat k + 256 ^ Z.of_nat k)
       mod 256 ^ Z.of_nat (length pre + k).
Proof.
  revert k. induction pre as [| b pre IH] using rev_ind; intros k Hall r.
  - subst r. cbn [length cloudup.incrementFrom app Nat.add].
    split; [apply length_replicate |].
    split.
    + apply Forall_replicate. unfold cloudup.isByte. lia.
    + pose proof (bigEndian_zeros [] k) as Hz. cbn [app] in Hz.
      rewrite Hz. cbn [cloudup.bigEndian fold_left].
      rewrite Z.mul_0_l, Z.add_0_l, Z_mod_same_full. reflexivity.
  - apply Forall_app in Hall as [Hpre Hb].
    apply Forall_inv in Hb. unfold cloudup.isByte in Hb.
    pose proof (bigEndian_bound pre Hpre) as Hbound.
    assert (Hpow : 0 < 256 ^ Z.of_nat k) by (apply Z.pow_pos_nonneg; lia).
    subst r. rewrite length_app. cbn [length].
    replace (length pre + 1)%nat with (S (length pre)) by lia.
    cbn [cloudup.incrementFrom].
    rewrite <- app_assoc. cbn [app].
    rewrite list_lookup_middle by reflexivity.
    cbv zeta.
    replace (<[length pre := (b + 1) mod 256]>
               (pre ++ b :: replicate k 0)%list)
      with (pre ++ (b + 1) mod 256 :: replicate k 0)%list
      by (rewrite <- (Nat.add_0_r (length pre)) at 1;
          rewrite insert_app_r; reflexivity).
    destruct (Z.eq_dec b 255) as [-> | Hne].
    + (* the byte wraps: carry on *)
      change ((255 + 1) mod 256) with 0. cbn [Z.eqb negb].
      change (pre ++ 0 :: replicate k 0)%list
        with (pre ++ replicate (S k) 0)%list.
      destruct (IH (S k) Hpre) as (Hlen & Hbytes & Hval).
      split; [rewrite Hlen; lia |]. split; [exact Hbytes |].
      rewrite Hval, bigEndian_snoc.
      replace (length pre + S k)%nat with (S (length pre) + k)%nat by lia.
      f_equal. rewrite Nat2Z.inj_succ, Z.pow_succ_r by lia. lia.
    + (* no carry *)
      rewrite Z.mod_small by lia.
      destruct (Z.eqb_spec (b + 1) 0); [lia |]. cbn [negb].
      split; [rewrite length_app; cbn [length];
              rewrite length_replicate; lia |].
      split.
      * apply Forall_app. split; [exact Hpre |].
        constructor; [unfold cloudup.isByte; lia |].
        apply Forall_replicate. unfold cloudup.isByte. lia.
      * change (pre ++ (b + 1) :: replicate k 0)%list
          with (pre ++ [b + 1] ++ replicate k 0)%list.
        rewrite app_assoc, bigEndian_zeros, !bigEndian_snoc.
        rewrite Z.mod_small; [lia |].
        replace (Z.of_nat (S (length pre) + k))
          with (Z.of_nat (length pre) + 1 + Z.of_nat k) by lia.
        rewrite !Z.pow_add_r, Z.pow_1_r by lia.
        nia.
Qed.

(** X17: the loop of [incrementIP] adds one to the address read as a
    number, most significant byte first, and wraps around at the size of
    the address: it keeps the length, leaves every byte a byte, and turns
    an address of all ones into all zeros. *)
Theorem increment_adds_one (ip : list Z) :
  Forall cloudup.isByte ip ->
  length (cloudup.increment ip) = length ip
  /\ Forall cloudup.isByte (cloudup.increment ip)
  /\ cloudup.bigEndian (cloudup.increment ip)
     = (cloudup.bigEndian ip + 1) mod 256 ^ Z.of_nat (length ip).
Proof.
  intros Hall.
  destruct (incrementFrom_carry ip 0 Hall) as (Hlen & Hbytes & Hval).
  cbn [replicate] in *. rewrite app_nil_r in *.
  unfold cloudup.increment.
  split; [rewrite Hlen; lia |]. split; [exact Hbytes |].
  rewrite Hval. change (256 ^ Z.of_nat 0) with 1.
  rewrite Nat.add_0_r. f_equal. lia.
Qed.

Lemma increment_adds_one_witness :
  cloudup.increment [100; 64; 0; 255] = [100; 64; 1; 0]
  /\ cloudup.bigEndian (cloudup.increment [100; 64; 0; 255])
     = (cloudup.bigEndian [100; 64; 0; 255] + 1) mod 256 ^ Z.of_nat 4.
Proof.
  split; [reflexivity |].
  refine (proj2 (proj2 (increment_adds_one [100; 64; 0; 255] _))).
  repeat constructor; unfold cloudup.isByte; lia.
Defined.

(** ** The egress proxy *)

Lemma append_String (c : ascii) (s t : string) :
  String c s ++ t = String c (s ++ t).
Proof. reflexivity. Qed.

Lemma append_nil_r (s : string) : s ++ "" = s.
Proof.
  induction s as [| c s IH]; [reflexivity |].
  rewrite append_String, IH. reflexivity.
Qed.

Lemma append_assoc (a b c : string) : (a ++ b) ++ c = a ++ b ++ c.
Proof.
  induction a as [| x a IH]; [reflexivity |].
  rewrite !append_String, IH. reflexivity.
Qed.

Lemma prefix_app (p b : string) : String.prefix p (p ++ b) = true.
Proof.
  induction p as [| c p IH];
    [change ("" ++ b) with b; destruct b; reflexivity |].
  rewrite append_String. cbn [String.prefix].
  destruct (ascii_dec c c); [exact IH | contradiction].
Qed.

Lemma prefix_inv (p s : string) :
  String.prefix p s = true -> exists b, s = p ++ b.
Proof.
  revert s. induction p as [| c p IH]; intros s.
  - intros _. exists s. reflexivity.
  - destruct s as [| x s]; [discriminate |]. cbn [String.prefix].
    destruct (ascii_dec c x) as [-> | _]; [| discriminate].
    intros Hp. destruct (IH s Hp) as [b ->]. exists b. reflexivity.
Qed.

(** [strings.Contains] tells whether the string can be cut around an
    occurrence of the substring. *)
Lemma Contains_spec (s x : string) :
  proxy.Contains s x = true <-> exists a b, s = a ++ x ++ b.
Proof.
  split.
  - induction s as [| c s IH]; cbn [proxy.Contains].
    + rewrite orb_false_r. intros Hp.
      destruct (prefix_inv _ _ Hp) as [b Hb]. exists "", b. exact Hb.
    + intros Hc. apply orb_prop in Hc as [Hp | Hc].
      * destruct (prefix_inv _ _ Hp) as [b Hb]. exists "", b. exact Hb.
      * destruct (IH Hc) as (a & b & ->). exists (String c a), b.
        reflexivity.
  - intros (a & b & ->). induction a as [| c a IH].
    + change ("" ++ x ++ b) with (x ++ b).
      destruct (x ++ b) as [| c r] eqn:Heq; cbn [proxy.Contains].
      * destruct x; [reflexivity | discriminate Heq].
      * rewrite <- Heq, prefix_app. reflexivity.
    + change (String c a ++ x ++ b) with (String c (a ++ x ++ b)).
      cbn [proxy.Contains]. rewrite IH. apply orb_true_r.
Qed.

Lemma Contains_app_l (s t x : string) :
  proxy.Contains s x = true -> proxy.Contains (s ++ t) x = true.
Proof.
  intros Hc. apply Contains_spec in Hc as (a & b & ->).
  apply Contains_spec. exists a, (b ++ t).
  rewrite !append_assoc. reflexivity.
Qed.

Lemma Join_cons (x y : string) (l : list string) (sep : string) :
  proxy.Join (x :: y :: l) sep = x ++ sep ++ proxy.Join (y :: l) sep.
Proof. reflexivity. Qed.

Lemma Join_app (l1 l2 : list string) (sep : string) :
  l1 <> [] -> l2 <> [] ->
  proxy.Join (l1 ++ l2) sep = proxy.Join l1 sep ++ sep ++ proxy.Join l2 sep.
Proof.
  intros H1 H2. induction l1 as [| x l1 IH]; [contradiction |].
  destruct l1 as [| y l1].
  - destruct l2 as [| z l2]; [contradiction | reflexivity].
  - change ((x :: y :: l1) ++ l2)%list with (x :: y :: (l1 ++ l2))%list.
    rewrite !Join_cons.
    change (y :: (l1 ++ l2))%list with ((y :: l1) ++ l2)%list.
    rewrite IH by discriminate. rewrite !append_assoc. reflexivity.
Qed.

Lemma Join_In (x : string) (l : list string) (sep : string) :
  In x l -> exists a b, proxy.Join l sep = a ++ x ++ b.
Proof.
  induction l as [| y l IH]; [intros [] |].
  intros [<- | Hin].
  - destruct l as [| z l].
    + exists "", "". cbn. rewrite append_nil_r. reflexivity.
    + exists "", (sep ++ proxy.Join (z :: l) sep). reflexivity.
  - destruct l as [| z l]; [destruct Hin |].
    destruct (IH Hin) as (a & b & Heq).
    exists (y ++ sep ++ a), b.
    rewrite Join_cons, Heq, !append_assoc. reflexivity.
Qed.

Lemma Join_Split (s : string) :
  proxy.Join (strings.Split ","%char s) "," = s.
Proof.
  induction s as [| c r IH]; [reflexivity |].
  cbn [strings.Split].
  pose proof (Split_not_nil ","%char r) as Hne.
  destruct (strings.Split ","%char r) as [| h t]; [contradiction |].
  destruct (Ascii.eqb_spec c ","%char) as [-> | _].
  - rewrite Join_cons, IH. reflexivity.
  - destruct t as [| h' t].
    + cbn in IH |- *. rewrite IH. reflexivity.
    + rewrite Join_cons in IH |- *. rewrite append_String, IH.
      reflexivity.
Qed.

Lemma fold_appendMissing (excludes : string) (cs sl : list string) :
  fold_left (proxy.appendMissing excludes) cs sl
  = (sl ++ List.filter (fun c => negb (proxy.Contains excludes c)) cs)%list.
Proof.
  revert sl. induction cs as [| c cs IH]; intros sl;
    cbn [fold_left List.filter]; [rewrite app_nil_r; reflexivity |].
  rewrite IH. unfold proxy.appendMissing.
  destruct (negb (proxy.Contains excludes c));
    [rewrite <- app_assoc |]; reflexivity.
Qed.

Lemma fold_appendMissing_nonempty (excludes : string)
    (cs sl : list string) :
  fold_left
    (fun egressSlice exclude =>
       if String.eqb exclude "" then egressSlice
       else proxy.appendMissing excludes egressSlice exclude) cs sl
  = (sl ++ List.filter (fun c => negb (proxy.Contains excludes c))
             (List.filter (fun s => negb (String.eqb s "")) cs))%list.
Proof.
  revert sl. induction cs as [| c cs IH]; intros sl;
    cbn [fold_left List.filter]; [rewrite app_nil_r; reflexivity |].
  rewrite IH. destruct (String.eqb c ""); cbn [negb List.filter];
    [reflexivity |].
  unfold proxy.appendMissing.
  destruct (negb (proxy.Contains excludes c));
    [rewrite <- app_assoc |]; reflexivity.
Qed.

Section AssignProxy.

Context {N : cloudup.Net}.

(** What [assignProxy] returns when nothing fails: the excludes it had,
    followed by the wanted ones that were not yet among them. *)
Lemma assignProxy_value (cluster : proxy.Cluster)
    (p : proxy.EgressProxySpec) (ip : list Z) (ipNet : cloudup.IPNet)
    (firstIP : string) :
  proxy.EgressProxy cluster = Some p ->
  cloudup.net_ParseCIDR (proxy.NonMasqueradeCIDR cluster)
  = Some (ip, ipNet) ->
  cloudup.incrementIP ip (proxy.NonMasqueradeCIDR cluster) = inr firstIP ->
  proxy.assignProxy cluster
  = inr (Some
           {| proxy.ProxyExcludes :=
                proxy.Join
                  ((if negb (String.eqb (proxy.ProxyExcludes p) "")
                    then strings.Split ","%char (proxy.ProxyExcludes p)
                    else [])
                   ++ List.filter
                        (fun c =>
                           negb (proxy.Contains (proxy.ProxyExcludes p) c))
                        (proxy.wantedExcludes cluster firstIP))%list
                  "," |}).
Proof.
  intros Hp Hparse Hinc.
  unfold proxy.assignProxy. rewrite Hp, Hparse, Hinc. cbv zeta.
  rewrite fold_appendMissing, fold_appendMissing_nonempty.
  unfold proxy.wantedExcludes.
  match goal with
  | |- context [List.filter (fun s => negb (String.eqb s "")) ?l] =>
      set (basics := List.filter (fun s => negb (String.eqb s "")) l)
  end.
  clearbody basics.
  do 4 f_equal.
  rewrite !List.filter_app, <- ?app_assoc.
  unfold proxy.appendMissing.
  destruct (proxy.GetCloudProvider cluster);
    destruct (negb (String.eqb (proxy.NetworkCIDR cluster) ""));
    cbn [List.filter app];
    repeat match goal with
      | |- context [negb (proxy.Contains ?s ?c)] =>
          destruct (negb (proxy.Contains s c))
      end;
    rewrite <- ?app_assoc, ?app_nil_r; reflexivity.
Qed.

Lemma assignProxy_inv (cluster : proxy.Cluster)
    (p p' : proxy.EgressProxySpec) :
  proxy.EgressProxy cluster = Some p ->
  proxy.assignProxy cluster = inr (Some p') ->
  exists ip ipNet firstIP,
    cloudup.net_ParseCIDR (proxy.NonMasqueradeCIDR cluster)
    = Some (ip, ipNet)
    /\ cloudup.incrementIP ip (proxy.NonMasqueradeCIDR cluster)
       = inr firstIP
    /\ proxy.ProxyExcludes p'
       = proxy.Join
           ((if negb (String.eqb (proxy.ProxyExcludes p) "")
             then strings.Split ","%char (proxy.ProxyExcludes p) else [])
            ++ List.filter
                 (fun c => negb (proxy.Contains (proxy.ProxyExcludes p) c))
                 (proxy.wantedExcludes cluster firstIP))%list ",".
Proof.
  intros Hp Hres. pose proof Hres as Hshape.
  unfold proxy.assignProxy in Hshape. rewrite Hp in Hshape.
  destruct (cloudup.net_ParseCIDR (proxy.NonMasqueradeCIDR cluster))
    as [[ip ipNet] |] eqn:Hparse; [| discriminate].
  destruct (cloudup.incrementIP ip (proxy.NonMasqueradeCIDR cluster))
    as [err | firstIP] eqn:Hinc; [discriminate |].
  clear Hshape.
  exists ip, ipNet, firstIP. split; [reflexivity |]. split; [exact Hinc |].
  rewrite (assignProxy_value cluster p ip ipNet firstIP Hp Hparse Hinc)
    in Hres.
  injection Hres as <-. reflexivity.
Qed.

(** The excludes on entry head the joined excludes. *)
Lemma joined_keeps (old : string) (added : list string) :
  exists tail,
    proxy.Join
      ((if negb (String.eqb old "") then strings.Split ","%char old
        else []) ++ added)%list ","
    = old ++ tail.
Proof.
  destruct (String.eqb_spec old "") as [-> | Hne]; cbn [negb].
  - eexists. reflexivity.
  - destruct added as [| x added].
    + exists "". rewrite app_nil_r, Join_Split, append_nil_r. reflexivity.
    + exists ("," ++ proxy.Join (x :: added) ",").
      rewrite Join_app, Join_Split;
        [reflexivity | apply Split_not_nil | discriminate].
Qed.

(** Every wanted exclude is within the joined excludes. *)
Lemma joined_covers (old : string) (wanted : list string) (c : string) :
  In c wanted ->
  proxy.Contains
    (proxy.Join
       ((if negb (String.eqb old "") then strings.Split ","%char old
         else [])
        ++ List.filter (fun c => negb (proxy.Contains old c)) wanted)%list
       ",") c = true.
Proof.
  intros Hin. destruct (proxy.Contains old c) eqn:Hc.
  - destruct (joined_keeps old
                (List.filter (fun c => negb (proxy.Contains old c)) wanted))
      as [tail ->].
    apply Contains_app_l, Hc.
  - apply Contains_spec, Join_In, in_or_app. right.
    apply List.filter_In. split; [exact Hin |]. rewrite Hc. reflexivity.
Qed.

Lemma Contains_empty (s : string) : proxy.Contains s "" = true.
Proof. destruct s; reflexivity. Qed.

Lemma filter_none {A} (f : A -> bool) (l : list A) :
  (forall x, In x l -> f x = false) -> List.filter f l = [].
Proof.
  induction l as [| x l IH]; intros Hall; [reflexivity |].
  cbn [List.filter]. rewrite (Hall x (or_introl eq_refl)).
  apply IH. intros y Hy. apply Hall. right. exact Hy.
Qed.

(** X18: [assignProxy] only adds to the excludes.  Without a proxy it
    returns none; with one, the [ProxyExcludes] it returns begin with the
    [ProxyExcludes] it was given. *)
Theorem assignProxy_keeps_excludes (cluster : proxy.Cluster) :
  (proxy.EgressProxy cluster = None ->
   proxy.assignProxy cluster = inr None)
  /\ (forall p p',
        proxy.EgressProxy cluster = Some p ->
        proxy.assignProxy cluster = inr (Some p') ->
        exists tail,
          proxy.ProxyExcludes p' = proxy.ProxyExcludes p ++ tail)
  /\ (forall p,
        proxy.EgressProxy cluster = Some p ->
        proxy.assignProxy cluster <> inr None).
Proof.
  split; [| split].
  - intros Hnone. unfold proxy.assignProxy. rewrite Hnone. reflexivity.
  - intros p p' Hp Hres.
    destruct (assignProxy_inv cluster p p' Hp Hres)
      as (ip & ipNet & firstIP & _ & _ & ->).
    apply joined_keeps.
  - intros p Hp. unfold proxy.assignProxy. rewrite Hp.
    destruct (cloudup.net_ParseCIDR _) as [[ip ipNet] |]; [| discriminate].
    destruct (cloudup.incrementIP ip _); discriminate.
Qed.

(** X19: after [assignProxy], every exclude it looks for is within
    [ProxyExcludes]: the loopback address and name, the DNS domain, the
    public name and the name of the cluster, the first address of the
    non-masquerade range and that range, the network CIDR and the
    additional ones, and on AWS the metadata address. *)
Theorem assignProxy_covers (cluster : proxy.Cluster)
    (p p' : proxy.EgressProxySpec) :
  proxy.EgressProxy cluster = Some p ->
  proxy.assignProxy cluster = inr (Some p') ->
  exists ip ipNet firstIP,
    cloudup.net_ParseCIDR (proxy.NonMasqueradeCIDR cluster)
    = Some (ip, ipNet)
    /\ cloudup.incrementIP ip (proxy.NonMasqueradeCIDR cluster)
       = inr firstIP
    /\ (forall c,
          In c (["127.0.0.1"; "localhost"; proxy.ClusterDNSDomain cluster;
                 proxy.API_PublicName cluster;
                 proxy.ObjectMeta_Name cluster; firstIP;
                 proxy.NonMasqueradeCIDR cluster;
                 proxy.NetworkCIDR cluster]
                ++ proxy.AdditionalNetworkCIDRs cluster)%list ->
          proxy.Contains (proxy.ProxyExcludes p') c = true)
    /\ (proxy.GetCloudProvider cluster = proxy.CloudProviderAWS ->
        proxy.Contains (proxy.ProxyExcludes p') "169.254.169.254" = true).
Proof.
  intros Hp Hres.
  destruct (assignProxy_inv cluster p p' Hp Hres)
    as (ip & ipNet & firstIP & Hparse & Hinc & ->).
  exists ip, ipNet, firstIP. split; [exact Hparse |]. split; [exact Hinc |].
  split.
  - intros c Hin.
    destruct (String.eqb_spec c "") as [-> | Hne];
      [apply Contains_empty |].
    apply joined_covers. unfold proxy.wantedExcludes.
    change ([?a; ?b; ?c1; ?d; ?e; ?f; ?g; ?h] ++ ?l)%list
      with ([a; b; c1; d; e; f; g] ++ [h] ++ l)%list in Hin.
    apply in_app_or in Hin as [Hin | Hin].
    + apply in_or_app. left. apply List.filter_In.
      split; [exact Hin |].
      destruct (String.eqb_spec c ""); [contradiction | reflexivity].
    + apply in_or_app. right. apply in_or_app. right.
      apply in_app_or in Hin as [[<- | []] | Hin].
      * apply in_or_app. left.
        destruct (String.eqb_spec (proxy.NetworkCIDR cluster) "");
          [contradiction | left; reflexivity].
      * apply in_or_app. right. exact Hin.
  - intros Haws. apply joined_covers. unfold proxy.wantedExcludes.
    apply in_or_app. right. apply in_or_app. left.
    rewrite Haws. left. reflexivity.
Qed.

(** X20: [assignProxy] is idempotent: on the cluster that holds the proxy
    it returned, it returns that proxy again, with nothing added. *)
Theorem assignProxy_idempotent (cluster : proxy.Cluster)
    (p p' : proxy.EgressProxySpec) :
  proxy.EgressProxy cluster = Some p ->
  proxy.assignProxy cluster = inr (Some p') ->
  proxy.assignProxy (proxy.withEgressProxy cluster (Some p'))
  = inr (Some p').
Proof.
  intros Hp Hres.
  destruct (assignProxy_inv cluster p p' Hp Hres)
    as (ip & ipNet & firstIP & Hparse & Hinc & Hnew).
  rewrite (assignProxy_value (proxy.withEgressProxy cluster (Some p'))
             p' ip ipNet firstIP eq_refl Hparse Hinc).
  change (proxy.wantedExcludes (proxy.withEgressProxy cluster (Some p'))
            firstIP)
    with (proxy.wantedExcludes cluster firstIP).
  rewrite (filter_none
             (fun c => negb (proxy.Contains (proxy.ProxyExcludes p') c))).
  - rewrite app_nil_r.
    destruct p' as [new]. cbn [proxy.ProxyExcludes] in *.
    do 3 f_equal.
    destruct (String.eqb_spec new "") as [-> | _]; cbn [negb];
      [reflexivity | apply Join_Split].
  - intros c Hin. rewrite Hnew.
    rewrite (joined_covers (proxy.ProxyExcludes p) _ c Hin). reflexivity.
Qed.

End AssignProxy.

Lemma assignProxy_example :
  proxy.assignProxy (H := proxy.exampleNet) proxy.exampleCluster
  = inr (Some
           {| proxy.ProxyExcludes :=
                "internal.example.com,127.0.0.1,localhost,cluster.local,"
                ++ "api.k8s.example.com,k8s.example.com,100.64.0.1,"
                ++ "100.64.0.0/10,169.254.169.254,172.20.0.0/16" |}).
Proof. vm_compute. reflexivity. Qed.

Lemma assignProxy_keeps_excludes_witness :
  exists tail,
    "internal.example.com,127.0.0.1,localhost,cluster.local,"
    ++ "api.k8s.example.com,k8s.example.com,100.64.0.1,"
    ++ "100.64.0.0/10,169.254.169.254,172.20.0.0/16"
    = "internal.example.com" ++ tail.
Proof.
  exact (proj1 (proj2 (assignProxy_keeps_excludes (N := proxy.exampleNet)
                         proxy.exampleCluster))
           {| proxy.ProxyExcludes := "internal.example.com" |}
           _ eq_refl assignProxy_example).
Defined.

Lemma assignProxy_covers_witness :
  proxy.Contains
    ("internal.example.com,127.0.0.1,localhost,cluster.local,"
     ++ "api.k8s.example.com,k8s.example.com,100.64.0.1,"
     ++ "100.64.0.0/10,169.254.169.254,172.20.0.0/16")
    "169.254.169.254" = true.
Proof.
  destruct (assignProxy_covers (N := proxy.exampleNet)
              proxy.exampleCluster
              {| proxy.ProxyExcludes := "internal.example.com" |}
              _ eq_refl assignProxy_example)
    as (ip & ipNet & firstIP & _ & _ & _ & Haws).
  exact (Haws eq_refl).
Defined.

Lemma assignProxy_idempotent_witness :
  proxy.assignProxy (H := proxy.exampleNet)
    (proxy.withEgressProxy proxy.exampleCluster
       (Some
          {| proxy.ProxyExcludes :=
               "internal.example.com,127.0.0.1,localhost,cluster.local,"
               ++ "api.k8s.example.com,k8s.example.com,100.64.0.1,"
               ++ "100.64.0.0/10,169.254.169.254,172.20.0.0/16" |}))
  = inr (Some
           {| proxy.ProxyExcludes :=
                "internal.example.com,127.0.0.1,localhost,cluster.local,"
                ++ "api.k8s.example.com,k8s.example.com,100.64.0.1,"
                ++ "100.64.0.0/10,169.254.169.254,172.20.0.0/16" |}).
Proof.
  exact (assignProxy_idempotent (N := proxy.exampleNet)
           proxy.exampleCluster
           {| proxy.ProxyExcludes := "internal.example.com" |}
           _ eq_refl assignProxy_example).
Defined.
